(** * sr_event_liver_get: event room list fetcher and FTP reconciliation

    A shallow embedding of [app.py]: the paginated fetcher
    ([fetch_all_room_data]), the FTP download ([download_ftp_file]), the
    group-by/idxmax reconciliation and the orchestrator ([main]).

    Library code that [app.py] calls (requests, pandas, ftplib, streamlit) is
    not part of the repository.  It is represented by its documented
    behaviour:
    - a JSON body is a value of [json]; numbers are integers (identifiers and
      page numbers), fractional numbers are outside the model;
    - a character is a code point below 256;
    - a data frame with a RangeIndex is the list of its rows, the label of a
      row being its position;
    - an exception is a value of [exn] carried by [result];
    - what the libraries compute on values the program does not inspect
      (Python's [==] on JSON values, [str] of a list or dict, the numeric
      coercion of [pd.to_numeric], the CSV reader) is a section variable. *)

From Stdlib Require Import ZArith List String Ascii Bool Arith Lia DecimalString.
From Stdlib Require Import Sorted.
From Stdlib Require OrderedTypeEx.
Import ListNotations.
Open Scope string_scope.
Open Scope list_scope.
Set Warnings "-register-all".

(** ** Python values *)

Inductive json : Type :=
| JNull
| JBool (b : bool)
| JInt (n : Z)
| JStr (s : string)
| JList (items : list json)
| JDict (fields : list (string * json)).

Inductive exn : Type :=
| KeyError
| Exception.

Inductive result (A : Type) : Type :=
| Ok (a : A)
| Raise (e : exn).

Arguments Ok {A} a.
Arguments Raise {A} e.

(** One row of the two-column table: [room_id], [event_id]. *)
Record Room : Type := mkRoom { room_id : string; event_id : string }.

(** [bool(x)] *)
Definition py_truthy (x : json) : bool :=
  match x with
  | JNull => false
  | JBool b => b
  | JInt n => negb (n =? 0)%Z
  | JStr s => negb (s =? "")
  | JList items => match items with [] => false | _ => true end
  | JDict fields => match fields with [] => false | _ => true end
  end.

(** Lookup in a decoded JSON object: the first binding of the key. *)
Fixpoint assoc (k : string) (fields : list (string * json)) : option json :=
  match fields with
  | [] => None
  | (k', v) :: rest => if k' =? k then Some v else assoc k rest
  end.

(** [d.get(k, default)]; [None] when [d] is not a dict (AttributeError). *)
Definition dict_get (d : json) (k : string) (default : json) : option json :=
  match d with
  | JDict fields =>
      Some (match assoc k fields with Some v => v | None => default end)
  | _ => None
  end.

(** The items a [for] loop visits; [None] when the value is not iterable
    (TypeError).  A dict yields its keys, a string its characters. *)
Fixpoint chars (s : string) : list json :=
  match s with
  | "" => []
  | String c t => JStr (String c "") :: chars t
  end.

Definition py_iter (x : json) : option (list json) :=
  match x with
  | JList items => Some items
  | JDict fields => Some (map (fun kv => JStr (fst kv)) fields)
  | JStr s => Some (chars s)
  | _ => None
  end.

(** ** Text: [str.strip], [str.isdigit], [re.split(r'[\n,]+', _)] *)

Definition isspace (c : ascii) : bool :=
  let n := nat_of_ascii c in
  (((9 <=? n) && (n <=? 13)) || ((28 <=? n) && (n <=? 32))
   || (n =? 133) || (n =? 160))%nat.

Definition isdigit_char (c : ascii) : bool :=
  let n := nat_of_ascii c in
  (((48 <=? n) && (n <=? 57)) || (n =? 178) || (n =? 179) || (n =? 185))%nat.

Fixpoint lstrip (s : string) : string :=
  match s with
  | "" => ""
  | String c t => if isspace c then lstrip t else s
  end.

Fixpoint rstrip (s : string) : string :=
  match s with
  | "" => ""
  | String c t =>
      match rstrip t with
      | "" => if isspace c then "" else String c ""
      | t' => String c t'
      end
  end.

Definition strip (s : string) : string := rstrip (lstrip s).

Fixpoint all_chars (p : ascii -> bool) (s : string) : bool :=
  match s with
  | "" => true
  | String c t => p c && all_chars p t
  end.

Definition isdigit (s : string) : bool :=
  match s with
  | "" => false
  | _ => all_chars isdigit_char s
  end.

Definition is_sep (c : ascii) : bool :=
  (c =? "010")%char || (c =? ",")%char.

(** The pieces between the maximal runs of separators; a separator at either
    end leaves an empty piece there. *)
Fixpoint re_split (s : string) : list string :=
  match s with
  | "" => [""]
  | String c t =>
      let pieces := re_split t in
      if is_sep c then
        match t with
        | String c' _ => if is_sep c' then pieces else "" :: pieces
        | "" => "" :: pieces
        end
      else
        match pieces with
        | p :: ps => String c p :: ps
        | [] => [String c ""]
        end
  end.

(** [main], lines 135-140. *)
Definition parse_event_ids (event_ids_input : string) : list string :=
  if negb (event_ids_input =? "") then
    let raw_ids := re_split (strip event_ids_input) in
    map strip (filter (fun eid => isdigit (strip eid)) raw_ids)
  else [].

(** ** Coercion of plain decimal tokens

    [pd.to_numeric(_, errors='coerce')] on one cell, for the tokens of the
    persisted format: a non-empty string of ASCII digits has its decimal
    value, and a string that is no numeric literal is NaN ([None]).  Literals
    in other notations (signs, fractions, exponents) are not covered by this
    instance; the reconciliation is defined over any coercion function. *)

Definition digit_value (c : ascii) : option Z :=
  let n := nat_of_ascii c in
  if ((48 <=? n) && (n <=? 57))%nat then Some (Z.of_nat (n - 48)) else None.

Fixpoint digits_value (s : string) (acc : Z) : option Z :=
  match s with
  | "" => Some acc
  | String c t =>
      match digit_value c with
      | Some d => digits_value t (10 * acc + d)%Z
      | None => None
      end
  end.

Definition to_numeric_plain (s : string) : option Z :=
  match s with
  | "" => None
  | _ => digits_value s 0%Z
  end.

(** [==] on JSON scalars (an integer equals the boolean of the same value).
    An instance for concrete runs, whose page cursors are scalars; it is not
    meant for lists and dicts. *)
Definition bool_int (b : bool) : Z := if b then 1%Z else 0%Z.

Definition scalar_eq (x y : json) : bool :=
  match x, y with
  | JNull, JNull => true
  | JBool a, JBool b => Bool.eqb a b
  | JBool a, JInt n => (bool_int a =? n)%Z
  | JInt n, JBool a => (n =? bool_int a)%Z
  | JInt n, JInt m => (n =? m)%Z
  | JStr s, JStr t => s =? t
  | _, _ => false
  end.

(** ** The program *)

Section App.

Set Default Proof Using "Type".

(** [x == y] on decoded JSON values. *)
Variable py_eq : json -> json -> bool.
(** [str(x)] for a list or a dict. *)
Variable container_str : json -> string.
(** [pd.to_numeric(_, errors='coerce')] on one cell; [None] is NaN. *)
Variable to_numeric : string -> option Z.
(** [pd.read_csv(_, header=None, names=['room_id','event_id'], dtype=str)]
    on the downloaded lines; [None] when it raises, a missing cell is NaN
    ([None]). *)
Variable read_csv : list string -> option (list (option string * option string)).

(** [str(x)] *)
Definition py_str (x : json) : string :=
  match x with
  | JNull => "None"
  | JBool b => if b then "True" else "False"
  | JInt n => NilZero.string_of_int (Z.to_int n)
  | JStr s => s
  | JList _ | JDict _ => container_str x
  end.

(** *** fetch_all_room_data *)

(** What [requests.get], [raise_for_status] and [response.json] leave: a
    decoded body, or an exception (timeout, connection failure, HTTP error
    status, undecodable body). *)
Inductive response : Type :=
| TransportError
| Body (data : json).

(** Body of the [for] loop, lines 49-59: [None] when a [.get] raises,
    [Some None] when the item is skipped, [Some (Some r)] when [r] is
    appended. *)
Definition room_record (room_data : json) : option (option Room) :=
  match dict_get room_data "room_id" JNull with
  | None => None
  | Some rid =>
      match dict_get room_data "event_entry" (JDict []) with
      | None => None
      | Some entry_data =>
          match dict_get entry_data "event_id" JNull with
          | None => None
          | Some current_event_id =>
              if py_truthy rid && py_truthy current_event_id
              then Some (Some (mkRoom (py_str rid) (py_str current_event_id)))
              else Some None
          end
      end
  end.

(** The [for] loop over one page, lines 46-59: the extended [all_rooms] and
    whether the loop ran to its end ([false]: an item raised). *)
Fixpoint extract_rooms (room_list : list json) (all_rooms : list Room)
  : list Room * bool :=
  match room_list with
  | [] => (all_rooms, true)
  | room_data :: rest =>
      match room_record room_data with
      | None => (all_rooms, false)
      | Some None => extract_rooms rest all_rooms
      | Some (Some r) => extract_rooms rest (all_rooms ++ [r])
      end
  end.

(** How the [while True] loop was left.  [Exhausted]: a [break] of the normal
    path (empty list, or no next page); [Aborted]: a [break] of an [except]
    branch, after [st.error]; [Running]: the loop had not ended when the fuel
    of the model ran out. *)
Inductive status : Type :=
| Exhausted
| Aborted
| Running.

Record fetched : Type := mkFetched {
  all_rooms : list Room;
  requested : list json;
  state : status
}.

(** What one iteration of the loop makes of a page, lines 28-78. *)
Inductive step : Type :=
| Break (rooms : list Room) (s : status)
| Continue (rooms : list Room) (next_page : json).

Definition is_None (x : json) : bool :=
  match x with JNull => true | _ => false end.

(** Whether [page-1] (in the message of line 42) evaluates; on a string, a
    list or a dict it raises TypeError. *)
Definition has_pred (page : json) : bool :=
  match page with JInt _ | JBool _ => true | _ => false end.

Definition fetch_page (api : json -> response) (page : json)
  (rooms : list Room) : step :=
  match api page with
  | TransportError => Break rooms Aborted
  | Body data =>
      match dict_get data "list" (JList []) with
      | None => Break rooms Aborted
      | Some room_list =>
          if negb (py_truthy room_list) then
            Break rooms (if has_pred page then Exhausted else Aborted)
          else
            match py_iter room_list with
            | None => Break rooms Aborted
            | Some items =>
                match extract_rooms items rooms with
                | (rooms', false) => Break rooms' Aborted
                | (rooms', true) =>
                    match dict_get data "next_page" JNull with
                    | None => Break rooms' Aborted
                    | Some next_page =>
                        if is_None next_page || py_eq next_page page
                        then Break rooms' Exhausted
                        else Continue rooms' next_page
                    end
                end
            end
      end
  end.

Fixpoint fetch_pages (fuel : nat) (api : json -> response) (page : json)
  (rooms : list Room) (reqs : list json) : fetched :=
  match fuel with
  | O => mkFetched rooms reqs Running
  | S fuel' =>
      match fetch_page api page rooms with
      | Break rooms' s => mkFetched rooms' (reqs ++ [page]) s
      | Continue rooms' next_page =>
          fetch_pages fuel' api next_page rooms' (reqs ++ [page])
      end
  end.

(** [api] answers the request for a page of the event; [page = 1] at the
    start. *)
Definition fetch_all_room_data (fuel : nat) (api : json -> response) : fetched :=
  fetch_pages fuel api (JInt 1) [] [].

(** *** Reconciliation, lines 199-211 *)

(** [combined_df] with its working column [event_id_num]. *)
Definition with_event_id_num (df : list Room) : list (Room * option Z) :=
  map (fun r => (r, to_numeric (event_id r))) df.

(** Keys of [groupby('room_id')]: the distinct values, sorted. *)
Fixpoint insert_key (k : string) (ks : list string) : list string :=
  match ks with
  | [] => [k]
  | h :: t =>
      match String.compare k h with
      | Lt => k :: ks
      | Eq => ks
      | Gt => h :: insert_key k t
      end
  end.

Definition group_keys (rows : list (Room * option Z)) : list string :=
  fold_right insert_key [] (map (fun row => room_id (fst row)) rows).

(** [idxmax] of one group with [skipna=True]: a scan of the rows from label
    [i] on, [best] being the label and value of the first maximum so far;
    only a strictly greater value replaces it.  [None] is NaN: the group has
    no value. *)
Fixpoint idxmax_scan (k : string) (rows : list (Room * option Z)) (i : nat)
  (best : option (nat * Z)) : option (nat * Z) :=
  match rows with
  | [] => best
  | (r, v) :: rest =>
      let best' :=
        if room_id r =? k then
          match v, best with
          | None, _ => best
          | Some x, None => Some (i, x)
          | Some x, Some (_, b) => if (b <? x)%Z then Some (i, x) else best
          end
        else best in
      idxmax_scan k rest (S i) best'
  end.

Definition idxmax (rows : list (Room * option Z)) (k : string) : option nat :=
  option_map fst (idxmax_scan k rows 0 None).

(** [df.loc[labels]]: a label that is NaN or not in the index raises
    KeyError.  (pandas 3 raises already in [idxmax], a ValueError, for a
    group without a value; either way no frame is returned.) *)
Fixpoint loc (rows : list (Room * option Z)) (labels : list (option nat))
  : result (list (Room * option Z)) :=
  match labels with
  | [] => Ok []
  | None :: _ => Raise KeyError
  | Some i :: rest =>
      match nth_error rows i with
      | None => Raise KeyError
      | Some row =>
          match loc rows rest with
          | Ok picked => Ok (row :: picked)
          | Raise e => Raise e
          end
      end
  end.

Definition final_df (combined_df : list Room) : result (list Room) :=
  let rows := with_event_id_num combined_df in
  match loc rows (map (idxmax rows) (group_keys rows)) with
  | Ok picked => Ok (map fst picked)
  | Raise e => Raise e
  end.

(** [astype(str)] on a cell. *)
Definition astype_str (cell : option string) : string :=
  match cell with Some s => s | None => "nan" end.

(** [existing_df.astype(str)] *)
Definition astype_rooms (existing_df : list (option string * option string))
  : list Room :=
  map (fun row => mkRoom (astype_str (fst row)) (astype_str (snd row)))
    existing_df.

(** Lines 192-197. *)
Definition combined_df (existing_df : list (option string * option string))
  (new_df : list Room) : list Room :=
  match existing_df with
  | [] => new_df
  | _ => astype_rooms existing_df ++ new_df
  end.

Definition reconcile (existing_df : list (option string * option string))
  (new_df : list Room) : result (list Room) :=
  final_df (combined_df existing_df new_df).
(** *** download_ftp_file, upload_ftp_file and main *)

Definition FTP_FILE_PATH : string :=
  "/mksoul-pro.com/showroom/file/event_liver_list.csv".

(** Operations on the FTP server, in the order they are attempted, and the
    messages shown to the user. *)
Inductive ftp_op : Type :=
| Connect
| Login
| Retr (remote_path : string)
| Stor (remote_path : string) (rows : list Room)
| Quit.

Inductive notice : Type :=
| WarnNoEventIds
| ErrorApi (event_id : string)
| ErrorNoRooms
| WarnDownloadFailed
| SuccessDownload
| SuccessUpload
| ErrorUpload
| ErrorSecrets
| ErrorFatal.

Inductive event : Type :=
| Ftp (op : ftp_op)
| St (n : notice).

(** What a run of [main] meets: the form, the listing API per event, the
    secrets and the FTP server. *)
Record world : Type := mkWorld {
  event_ids_input : string;
  button : bool;
  api : string -> json -> response;
  secrets : result unit;
  ftp_connect : bool;
  ftp_login : bool;
  ftp_retrlines : string -> option (list string);
  ftp_storlines : bool
}.

(** Lines 83-102: the frame and the message; every exception ends in the
    empty frame. *)
Definition download_ftp_file (retrlines : string -> option (list string))
  (remote_path : string) : list (option string * option string) * notice :=
  match retrlines remote_path with
  | None => ([], WarnDownloadFailed)
  | Some lines =>
      match read_csv lines with
      | None => ([], WarnDownloadFailed)
      | Some df => (df, SuccessDownload)
      end
  end.

(** Lines 105-121. *)
Definition upload_ftp_file (storlines : bool) (df : list Room)
  (remote_path : string) : list event :=
  [Ftp (Stor remote_path df);
   St (if storlines then SuccessUpload else ErrorUpload)].

(** Lines 153-157: the rooms of every event, in order, and the failures
    reported on the way; [None] when a pagination was still running at the
    end of the fuel. *)
Fixpoint fetch_events (fuel : nat) (w : world) (event_ids : list string)
  : option (list Room * list event) :=
  match event_ids with
  | [] => Some ([], [])
  | event_id :: rest =>
      let f := fetch_all_room_data fuel (api w event_id) in
      match state f, fetch_events fuel w rest with
      | Running, _ => None
      | _, None => None
      | s, Some (rooms, evs) =>
          Some (all_rooms f ++ rooms,
                match s with Aborted => [St (ErrorApi event_id)] | _ => [] end
                ++ evs)
      end
  end.

(** Lines 175-223, once [new_df] is not empty.  The [with] block sends QUIT
    when it is left with the connection open, before an [except] branch
    runs. *)
Definition ftp_session (w : world) (new_df : list Room) : list event :=
  match secrets w with
  | Raise KeyError => [St ErrorSecrets]
  | Raise Exception => [St ErrorFatal]
  | Ok _ =>
      if negb (ftp_connect w) then [Ftp Connect; St ErrorFatal]
      else if negb (ftp_login w) then
        [Ftp Connect; Ftp Login; Ftp Quit; St ErrorFatal]
      else
        let (existing_df, told) :=
          download_ftp_file (ftp_retrlines w) FTP_FILE_PATH in
        [Ftp Connect; Ftp Login; Ftp (Retr FTP_FILE_PATH); St told] ++
        match reconcile existing_df new_df with
        | Ok df =>
            upload_ftp_file (ftp_storlines w) df FTP_FILE_PATH ++ [Ftp Quit]
        | Raise KeyError => [Ftp Quit; St ErrorSecrets]
        | Raise Exception => [Ftp Quit; St ErrorFatal]
        end
  end.

Definition main (fuel : nat) (w : world) : option (list event) :=
  let event_ids := parse_event_ids (event_ids_input w) in
  match event_ids with
  | [] => Some [St WarnNoEventIds]
  | _ =>
      if button w then
        match fetch_events fuel w event_ids with
        | None => None
        | Some (new_data_list, told) =>
            match new_data_list with
            | [] => Some (told ++ [St ErrorNoRooms])
            | _ => Some (told ++ ftp_session w new_data_list)
            end
        end
      else Some []
  end.

Definition is_ftp (e : event) : bool :=
  match e with Ftp _ => true | St _ => false end.

(** *** Concrete runs *)

(** Instances for runs in which no list or dict is turned into a string and
    no file is read. *)
Definition no_container_str : json -> string := fun _ => "".

Definition read_csv_none
  : list string -> option (list (option string * option string)) :=
  fun _ => None.

(** The scenario of the specification: the stored snapshot and the rows
    fetched. *)
Definition snapshot : list (option string * option string) :=
  [(Some "100", Some "10"); (Some "200", Some "20")].

Definition fetched_rooms : list Room :=
  [mkRoom "100" "15"; mkRoom "300" "30"].

(** The same event written in two ways. *)
Definition tie_snapshot : list (option string * option string) :=
  [(Some "p", Some "5")].

Definition tie_rooms : list Room := [mkRoom "p" "05"].

(** A stored row whose [event_id] cell is empty, and a room whose event is
    not a number. *)
Definition blank_snapshot : list (option string * option string) :=
  [(Some "123", None)].

Definition one_room : list Room := [mkRoom "456" "40883"].

Definition unparseable_rooms : list Room := [mkRoom "p" "abc"].

Definition room_item (rid eid : json) : json :=
  JDict [("room_id", rid); ("event_entry", JDict [("event_id", eid)])].

Definition listing (items : list json) (next_page : json) : response :=
  Body (JDict [("list", JList items); ("next_page", next_page)]).

(** An API whose next page is always the page asked for. *)
Definition api_same_page (page : json) : response :=
  listing [room_item (JInt 5) (JInt 7)] page.

(** An API with two pages, whose third request fails. *)
Definition api_fails_on_third (page : json) : response :=
  match page with
  | JInt 1 => listing [room_item (JInt 5) (JInt 7)] (JInt 2)
  | JInt 2 => listing [room_item (JStr "6") (JInt 7)] (JInt 3)
  | _ => TransportError
  end.

Definition world_unreachable : world :=
  mkWorld "40883" true (fun _ _ => TransportError) (Ok tt) true true
    (fun _ => None) true.

Definition world_first_run : world :=
  mkWorld "40883" true (fun _ => api_same_page) (Ok tt) true true
    (fun _ => None) true.

Definition world_unparseable : world :=
  mkWorld "1" true
    (fun _ page => listing [room_item (JStr "p") (JStr "abc")] page)
    (Ok tt) true true (fun _ => None) true.

(** *** Properties the theorems speak of *)

(** Row [i] of the frame belongs to group [k] and has the value [x]. *)
Definition in_group (rows : list (Room * option Z)) (k : string) (i : nat)
  (x : Z) : Prop :=
  exists r, nth_error rows i = Some (r, Some x) /\ room_id r = k.

(** Row [i] is the first row of group [k] that has the greatest value. *)
Definition first_max (rows : list (Room * option Z)) (k : string) (i : nat)
  (x : Z) : Prop :=
  in_group rows k i x /\
  forall j y, in_group rows k j y -> (y <= x)%Z /\ (y = x -> i <= j).

(** The loop, started at [page] with [rooms] accumulated, goes on through
    the pages [visited] and stands at [page'] with [rooms']. *)
Inductive reaches (api : json -> response)
  : json -> list Room -> list json -> json -> list Room -> Prop :=
| reaches_here (page : json) (rooms : list Room) :
    reaches api page rooms [] page rooms
| reaches_next (page : json) (rooms rooms1 : list Room) (page1 : json)
    (visited : list json) (page' : json) (rooms' : list Room) :
    fetch_page api page rooms = Continue rooms1 page1 ->
    reaches api page1 rooms1 visited page' rooms' ->
    reaches api page rooms (page :: visited) page' rooms'.

(** A body of the shape the listing API documents: [list] is an array whose
    items are objects with an object (or nothing) under [event_entry]. *)
Definition well_formed_body (data : json) : Prop :=
  exists items,
    dict_get data "list" (JList []) = Some (JList items) /\
    Forall (fun room_data => room_record room_data <> None) items.

(** An identifier that is missing, the integer 0 or the empty string. *)
Definition falsy_id (v : option json) : Prop :=
  v = None \/ v = Some JNull \/ v = Some (JInt 0) \/ v = Some (JStr "").

(** A record made of two truthy values. *)
Definition from_truthy (r : Room) : Prop :=
  exists v w,
    py_truthy v = true /\ py_truthy w = true /\
    v <> JInt 0 /\ v <> JStr "" /\ w <> JInt 0 /\ w <> JStr "" /\
    r = mkRoom (py_str v) (py_str w).

(** Every participant of the frame has a row whose [event_id] is numeric. *)
Definition all_groups_valued (df : list Room) : Prop :=
  forall r, In r df ->
  exists r' x, In r' df /\ room_id r' = room_id r /\
               to_numeric (event_id r') = Some x.

(** The state of the scan describes the rows seen so far. *)
Definition scan_inv (rows : list (Room * option Z)) (k : string)
  (best : option (nat * Z)) : Prop :=
  match best with
  | None => forall j y, ~ in_group rows k j y
  | Some (i, x) => first_max rows k i x
  end.

(** ** Reconciliation: group keys *)

Lemma insert_key_In (k x : string) (ks : list string) :
  In x (insert_key k ks) <-> x = k \/ In x ks.
Proof.
  induction ks as [|h t IH]; simpl.
  - split; intros [H|H]; auto.
  - destruct (k ?= h) eqn:E; simpl.
    + apply String.compare_eq_iff in E. subst.
      split; [intros [H|H]|intros [H|[H|H]]]; auto.
    + split; [intros [H|[H|H]]|intros [H|[H|H]]]; auto.
    + rewrite IH.
      split; [intros [H|[H|H]]|intros [H|[H|H]]]; auto.
Qed.

Lemma group_keys_In (rows : list (Room * option Z)) (k : string) :
  In k (group_keys rows) <-> exists row, In row rows /\ room_id (fst row) = k.
Proof.
  unfold group_keys. induction rows as [|row rows IH]; simpl.
  - split; [intros [] | intros (row & [] & _)].
  - rewrite insert_key_In, IH. split.
    + intros [->|(row' & Hin & Hk)]; eauto.
    + intros (row' & [->|Hin] & Hk); eauto.
Qed.

Lemma compare_Lt_lt (a b : string) :
  (a ?= b) = Lt <-> OrderedTypeEx.String_as_OT.lt a b.
Proof. apply OrderedTypeEx.String_as_OT.cmp_lt. Qed.

Lemma insert_key_sorted (k : string) (ks : list string) :
  StronglySorted OrderedTypeEx.String_as_OT.lt ks ->
  StronglySorted OrderedTypeEx.String_as_OT.lt (insert_key k ks).
Proof.
  induction 1 as [|h t Hs IH Hall]; simpl.
  - repeat constructor.
  - destruct (k ?= h) eqn:E.
    + constructor; assumption.
    + apply compare_Lt_lt in E. constructor.
      * constructor; assumption.
      * constructor; [assumption|].
        eapply Forall_impl; [|exact Hall].
        intros x Hx. eapply OrderedTypeEx.String_as_OT.lt_trans; eassumption.
    + constructor; [exact IH|].
      apply Forall_forall. intros x Hx. apply insert_key_In in Hx.
      destruct Hx as [->|Hx].
      * apply compare_Lt_lt. rewrite String.compare_antisym, E. reflexivity.
      * rewrite Forall_forall in Hall. auto.
Qed.

Lemma group_keys_sorted (rows : list (Room * option Z)) :
  StronglySorted OrderedTypeEx.String_as_OT.lt (group_keys rows).
Proof.
  unfold group_keys. induction rows as [|row rows IH]; simpl.
  - constructor.
  - apply insert_key_sorted, IH.
Qed.

Lemma sorted_NoDup (ks : list string) :
  StronglySorted OrderedTypeEx.String_as_OT.lt ks -> NoDup ks.
Proof.
  induction 1 as [|h t Hs IH Hall]; constructor; [|exact IH].
  intro Hin. rewrite Forall_forall in Hall.
  apply (OrderedTypeEx.String_as_OT.lt_not_eq h h (Hall h Hin)). reflexivity.
Qed.

Lemma group_keys_NoDup (rows : list (Room * option Z)) :
  NoDup (group_keys rows).
Proof. apply sorted_NoDup, group_keys_sorted. Qed.

(** ** Reconciliation: idxmax is the first maximum of the group *)

Lemma in_group_snoc (pre : list (Room * option Z)) (r : Room) (v : option Z)
  (k : string) (j : nat) (y : Z) :
  in_group (pre ++ [(r, v)]) k j y <->
  in_group pre k j y \/ (j = List.length pre /\ room_id r = k /\ v = Some y).
Proof.
  unfold in_group. split.
  - intros (r0 & Hn & Hk).
    destruct (Nat.lt_ge_cases j (List.length pre)) as [Hlt|Hge].
    + rewrite nth_error_app1 in Hn by assumption. left. eauto.
    + rewrite nth_error_app2 in Hn by assumption.
      destruct (j - List.length pre) as [|d] eqn:Ed; simpl in Hn.
      * inversion Hn; subst. right. repeat split; lia.
      * destruct d; discriminate.
  - intros [(r0 & Hn & Hk)|(-> & Hk & ->)].
    + exists r0. split; [|assumption].
      rewrite nth_error_app1; [assumption|].
      apply nth_error_Some. congruence.
    + exists r. split; [|assumption].
      rewrite nth_error_app2 by lia. rewrite Nat.sub_diag. reflexivity.
Qed.

Lemma in_group_bound (rows : list (Room * option Z)) (k : string) (j : nat)
  (y : Z) :
  in_group rows k j y -> j < List.length rows.
Proof.
  intros (r & Hn & _). apply nth_error_Some. congruence.
Qed.

Lemma idxmax_scan_inv (k : string) (rest pre : list (Room * option Z))
  (best : option (nat * Z)) :
  scan_inv pre k best ->
  scan_inv (pre ++ rest) k (idxmax_scan k rest (List.length pre) best).
Proof.
  revert pre best. induction rest as [|[r v] rest IH]; intros pre best Hinv.
  - simpl. rewrite app_nil_r. exact Hinv.
  - simpl.
    replace (pre ++ (r, v) :: rest) with ((pre ++ [(r, v)]) ++ rest)
      by (rewrite <- app_assoc; reflexivity).
    replace (S (List.length pre)) with (List.length (pre ++ [(r, v)]))
      by (rewrite length_app; simpl; lia).
    apply IH.
    destruct (room_id r =? k) eqn:Ek.
    + apply String.eqb_eq in Ek.
      destruct v as [x|].
      * destruct best as [[i b]|].
        -- destruct Hinv as (Hin & Hmax).
           destruct (b <? x)%Z eqn:Eb.
           ++ apply Z.ltb_lt in Eb. split.
              ** apply in_group_snoc. right. auto.
              ** intros j y Hj. apply in_group_snoc in Hj.
                 destruct Hj as [Hj|(-> & _ & Hy)].
                 --- pose proof (Hmax j y Hj) as (Hle & _).
                     split; [lia|]. intros ->. lia.
                 --- inversion Hy; subst. split; [lia|]. intros _. lia.
           ++ apply Z.ltb_ge in Eb. split.
              ** apply in_group_snoc. left. exact Hin.
              ** intros j y Hj. apply in_group_snoc in Hj.
                 destruct Hj as [Hj|(-> & _ & Hy)].
                 --- apply Hmax. exact Hj.
                 --- inversion Hy; subst. split; [lia|]. intros _.
                     apply in_group_bound in Hin. lia.
        -- split.
           ++ apply in_group_snoc. right. auto.
           ++ intros j y Hj. apply in_group_snoc in Hj.
              destruct Hj as [Hj|(-> & _ & Hy)].
              ** exfalso. exact (Hinv j y Hj).
              ** inversion Hy; subst. split; [lia|]. intros _. lia.
      * destruct best as [[i b]|].
        -- destruct Hinv as (Hin & Hmax). split.
           ++ apply in_group_snoc. left. exact Hin.
           ++ intros j y Hj. apply in_group_snoc in Hj.
              destruct Hj as [Hj|(_ & _ & Hy)]; [auto|discriminate].
        -- intros j y Hj. apply in_group_snoc in Hj.
           destruct Hj as [Hj|(_ & _ & Hy)]; [exact (Hinv j y Hj)|discriminate].
    + apply String.eqb_neq in Ek.
      destruct best as [[i b]|].
      * destruct Hinv as (Hin & Hmax). split.
        -- apply in_group_snoc. left. exact Hin.
        -- intros j y Hj. apply in_group_snoc in Hj.
           destruct Hj as [Hj|(_ & Hk & _)]; [auto|contradiction].
      * intros j y Hj. apply in_group_snoc in Hj.
        destruct Hj as [Hj|(_ & Hk & _)]; [exact (Hinv j y Hj)|contradiction].
Qed.

Lemma idxmax_Some (rows : list (Room * option Z)) (k : string) (i : nat) :
  idxmax rows k = Some i -> exists x, first_max rows k i x.
Proof.
  unfold idxmax. intros H.
  pose proof (idxmax_scan_inv k rows [] None) as Hinv. simpl in Hinv.
  destruct (idxmax_scan k rows 0 None) as [[i' x]|]; [|discriminate].
  inversion H; subst. exists x. apply Hinv.
  intros j y (r & Hn & _). destruct j; discriminate.
Qed.

Lemma idxmax_None (rows : list (Room * option Z)) (k : string) :
  idxmax rows k = None -> forall j y, ~ in_group rows k j y.
Proof.
  unfold idxmax. intros H.
  pose proof (idxmax_scan_inv k rows [] None) as Hinv. simpl in Hinv.
  destruct (idxmax_scan k rows 0 None) as [[i' x]|]; [discriminate|].
  apply Hinv. intros j y (r & Hn & _). destruct j; discriminate.
Qed.

Lemma first_max_unique (rows : list (Room * option Z)) (k : string)
  (i j : nat) (x y : Z) :
  first_max rows k i x -> first_max rows k j y -> i = j /\ x = y.
Proof.
  intros (Hi & Hmi) (Hj & Hmj).
  destruct (Hmi j y Hj) as (H1 & H2). destruct (Hmj i x Hi) as (H3 & H4).
  assert (x = y) by lia. subst. split; [|reflexivity].
  specialize (H2 eq_refl). specialize (H4 eq_refl). lia.
Qed.

Lemma idxmax_of_first_max (rows : list (Room * option Z)) (k : string)
  (m : nat) (x : Z) :
  first_max rows k m x -> idxmax rows k = Some m.
Proof.
  intros Hfm. destruct (idxmax rows k) as [m'|] eqn:E.
  - apply idxmax_Some in E. destruct E as (x' & Hfm').
    destruct (first_max_unique _ _ _ _ _ _ Hfm' Hfm) as (-> & _). reflexivity.
  - exfalso. destruct Hfm as (Hin & _). exact (idxmax_None _ _ E m x Hin).
Qed.

Lemma idxmax_exists (rows : list (Room * option Z)) (k : string) (i : nat)
  (x : Z) :
  in_group rows k i x -> exists m y, first_max rows k m y.
Proof.
  intros Hin. destruct (idxmax rows k) as [m|] eqn:E.
  - apply idxmax_Some in E. destruct E as (y & Hfm). eauto.
  - exfalso. exact (idxmax_None _ _ E i x Hin).
Qed.

(** ** Reconciliation: the selected rows *)

Lemma in_group_frame (df : list Room) (k : string) (i : nat) (x : Z) :
  in_group (with_event_id_num df) k i x <->
  exists r, nth_error df i = Some r /\ room_id r = k /\
            to_numeric (event_id r) = Some x.
Proof.
  unfold in_group, with_event_id_num. rewrite nth_error_map. split.
  - intros (r & Hn & Hk). destruct (nth_error df i) as [r0|]; [|discriminate].
    simpl in Hn. inversion Hn; subst. eauto.
  - intros (r & Hn & Hk & Hx). rewrite Hn. simpl. exists r.
    rewrite Hx. auto.
Qed.

Lemma loc_Ok (rows : list (Room * option Z)) (labels : list (option nat))
  (picked : list (Room * option Z)) :
  loc rows labels = Ok picked ->
  Forall2 (fun l row => exists i, l = Some i /\ nth_error rows i = Some row)
    labels picked.
Proof.
  revert picked. induction labels as [|[i|] rest IH]; simpl; intros picked H.
  - inversion H. constructor.
  - destruct (nth_error rows i) as [row|] eqn:En; [|discriminate].
    destruct (loc rows rest) as [picked'|e]; [|discriminate].
    inversion H; subst. constructor; eauto.
  - discriminate.
Qed.

Lemma loc_total (rows : list (Room * option Z)) (labels : list (option nat)) :
  (forall l, In l labels -> exists i, l = Some i /\ i < List.length rows) ->
  exists picked, loc rows labels = Ok picked.
Proof.
  induction labels as [|l rest IH]; simpl; intros H.
  - eauto.
  - destruct (H l (or_introl eq_refl)) as (i & -> & Hi).
    destruct (nth_error rows i) as [row|] eqn:En.
    + destruct IH as (picked & ->); eauto.
    + apply nth_error_None in En. lia.
Qed.

Lemma loc_NaN (rows : list (Room * option Z)) (labels : list (option nat)) :
  In None labels -> loc rows labels = Raise KeyError.
Proof.
  induction labels as [|[i|] rest IH]; simpl; intros H.
  - contradiction.
  - destruct H as [H|H]; [discriminate|].
    destruct (nth_error rows i); [|reflexivity].
    rewrite (IH H). reflexivity.
  - reflexivity.
Qed.

(** What a successful reconciliation returns: one row per group key, in the
    order of the keys, each the first maximum of its group. *)
Lemma final_df_Ok (df out : list Room) :
  final_df df = Ok out ->
  Forall2 (fun k r => room_id r = k /\
             exists i x, first_max (with_event_id_num df) k i x /\
                         nth_error df i = Some r /\
                         to_numeric (event_id r) = Some x)
    (group_keys (with_event_id_num df)) out.
Proof.
  unfold final_df.
  destruct (loc _ _) as [picked|e] eqn:El; [|discriminate].
  intros H. inversion H; subst. clear H.
  apply loc_Ok in El.
  remember (group_keys (with_event_id_num df)) as keys eqn:Ek. clear Ek.
  revert picked El. induction keys as [|k keys IH]; simpl; intros picked El.
  - inversion El. constructor.
  - inversion El as [|l row ls rows' (i & Hl & Hn) Hrest]; subst. simpl.
    constructor; [|apply IH; exact Hrest].
    apply idxmax_Some in Hl. destruct Hl as (x & Hfm).
    pose proof Hfm as (Hin & _). destruct Hin as (r & Hn' & Hk).
    rewrite Hn in Hn'. inversion Hn'; subst. simpl.
    split; [reflexivity|]. exists i, x. split; [exact Hfm|].
    unfold with_event_id_num in Hn. rewrite nth_error_map in Hn.
    destruct (nth_error df i) as [r0|]; [|discriminate].
    simpl in Hn. inversion Hn; subst. auto.
Qed.

Lemma final_df_keys (df out : list Room) :
  final_df df = Ok out ->
  map room_id out = group_keys (with_event_id_num df).
Proof.
  intros H. apply final_df_Ok in H.
  induction H as [|k r keys out' (Hk & _) _ IH]; simpl; congruence.
Qed.

Lemma group_keys_frame (df : list Room) (k : string) :
  In k (group_keys (with_event_id_num df)) <-> In k (map room_id df).
Proof.
  rewrite group_keys_In, in_map_iff. unfold with_event_id_num. split.
  - intros (row & Hin & Hk). apply in_map_iff in Hin.
    destruct Hin as (r & <- & Hr). eauto.
  - intros (r & Hk & Hr). exists (r, to_numeric (event_id r)). split; [|exact Hk].
    apply in_map_iff. eauto.
Qed.

(** The reconciliation returns a frame exactly when every participant has a
    numeric [event_id]. *)
Lemma final_df_total (df : list Room) :
  all_groups_valued df -> exists out, final_df df = Ok out.
Proof.
  intros Hall. unfold final_df.
  destruct (loc_total (with_event_id_num df)
              (map (idxmax (with_event_id_num df))
                 (group_keys (with_event_id_num df)))) as (picked & ->); [|eauto].
  intros l Hl. apply in_map_iff in Hl. destruct Hl as (k & <- & Hk).
  destruct (idxmax (with_event_id_num df) k) as [i|] eqn:Ei.
  - exists i. split; [reflexivity|].
    apply idxmax_Some in Ei. destruct Ei as (x & Hin & _).
    eapply in_group_bound; eassumption.
  - exfalso. apply group_keys_frame, in_map_iff in Hk.
    destruct Hk as (r & Hk & Hr).
    destruct (Hall r Hr) as (r' & x & Hr' & Hk' & Hx).
    apply In_nth_error in Hr'. destruct Hr' as (j & Hj).
    apply (idxmax_None _ _ Ei j x). apply in_group_frame.
    exists r'. repeat split; congruence.
Qed.

(** A participant none of whose rows has a numeric [event_id] makes the
    whole reconciliation raise: its group has no maximum, the label is NaN
    and the lookup fails. *)
Lemma final_df_KeyError (df : list Room) (r : Room) :
  In r df ->
  (forall r', In r' df -> room_id r' = room_id r ->
              to_numeric (event_id r') = None) ->
  final_df df = Raise KeyError.
Proof.
  intros Hr Hnan. unfold final_df. rewrite loc_NaN; [reflexivity|].
  apply in_map_iff. exists (room_id r). split.
  - destruct (idxmax (with_event_id_num df) (room_id r)) as [i|] eqn:Ei;
      [|reflexivity].
    exfalso. apply idxmax_Some in Ei. destruct Ei as (x & Hin & _).
    apply in_group_frame in Hin. destruct Hin as (r' & Hn & Hk & Hx).
    apply nth_error_In in Hn. rewrite (Hnan r' Hn Hk) in Hx. discriminate.
  - apply group_keys_frame, in_map_iff. eauto.
Qed.


Lemma combined_df_app (existing_df : list (option string * option string))
  (new_df : list Room) :
  combined_df existing_df new_df = astype_rooms existing_df ++ new_df.
Proof. destruct existing_df; reflexivity. Qed.

Lemma NoDup_map_inj {A B : Type} (f : A -> B) (l : list A) (a b : A) :
  NoDup (map f l) -> In a l -> In b l -> f a = f b -> a = b.
Proof.
  induction l as [|h t IH]; simpl; intros Hnd Ha Hb Hf; [contradiction|].
  inversion Hnd as [|? ? Hnotin Hnd']; subst.
  destruct Ha as [->|Ha], Hb as [->|Hb]; try reflexivity.
  - exfalso. apply Hnotin. rewrite Hf. apply in_map. exact Hb.
  - exfalso. apply Hnotin. rewrite <- Hf. apply in_map. exact Ha.
  - auto.
Qed.

Lemma Forall2_In_l {A B : Type} (P : A -> B -> Prop) (l : list A)
  (l' : list B) (a : A) :
  Forall2 P l l' -> In a l -> exists b, In b l' /\ P a b.
Proof.
  induction 1 as [|x y l l' Hxy _ IH]; simpl; intros Ha; [contradiction|].
  destruct Ha as [->|Ha]; [eauto|].
  destruct (IH Ha) as (b & Hb & Hab). eauto.
Qed.

(** The one row that a successful reconciliation keeps for a participant. *)
Lemma final_df_selects (df out : list Room) (k : string) :
  final_df df = Ok out -> In k (map room_id df) ->
  exists m r x,
    first_max (with_event_id_num df) k m x /\
    nth_error df m = Some r /\ room_id r = k /\
    to_numeric (event_id r) = Some x /\ In r out /\
    (forall r', In r' out -> room_id r' = k -> r' = r).
Proof.
  intros Hok Hk.
  pose proof (final_df_keys _ _ Hok) as Hkeys.
  pose proof (final_df_Ok _ _ Hok) as Hall.
  apply group_keys_frame in Hk.
  destruct (Forall2_In_l _ _ _ _ Hall Hk) as (r & Hr & Hrk & m & x & Hfm & Hn & Hx).
  exists m, r, x.
  split; [exact Hfm|]. split; [exact Hn|]. split; [exact Hrk|].
  split; [exact Hx|]. split; [exact Hr|].
  intros r' Hr' Hk'. apply (NoDup_map_inj room_id out); try assumption.
  - rewrite Hkeys. apply group_keys_NoDup.
  - congruence.
Qed.

(** ** Reconciliation: the claims *)

(** What the reconciliation keeps of the first maximum of a group, when it
    returns a frame. *)
Lemma first_max_is_kept (df out : list Room) (k : string) (m : nat) (x : Z)
  (r : Room) :
  first_max (with_event_id_num df) k m x ->
  nth_error df m = Some r ->
  final_df df = Ok out ->
  In r out /\ (forall r', In r' out -> room_id r' = k -> r' = r).
Proof.
  intros Hfm Hn Hok.
  assert (Hk : In k (map room_id df)).
  { destruct Hfm as (Hin & _). apply in_group_frame in Hin.
    destruct Hin as (r0 & Hn0 & Hk0 & _). rewrite <- Hk0.
    apply in_map. eapply nth_error_In. exact Hn0. }
  destruct (final_df_selects _ _ _ Hok Hk)
    as (m' & r' & x' & Hfm' & Hn' & _ & _ & Hr' & Huniq).
  destruct (first_max_unique _ _ _ _ _ _ Hfm Hfm') as (<- & _).
  rewrite Hn in Hn'. inversion Hn'; subst. auto.
Qed.

(** C1 (as amended).  When two rows of the working collection (existing rows
    first, incoming rows second) share a participant and have the same
    numeric value, and that value is the greatest of the participant, the
    row selected for the participant is the earliest row with that value: it
    lies at or before the earlier of the two, never at the later one, and it
    is an existing row whenever the earlier of the two is.  It is the one row
    of the participant in the frame the reconciliation returns, and the
    reconciliation returns a frame when every participant has a numeric
    [event_id]. *)
Theorem tie_keeps_earliest_row :
  forall (existing_df : list (option string * option string))
         (new_df : list Room) (i j : nat) (ri rj : Room) (x : Z),
    i < j ->
    nth_error (combined_df existing_df new_df) i = Some ri ->
    nth_error (combined_df existing_df new_df) j = Some rj ->
    room_id ri = room_id rj ->
    to_numeric (event_id ri) = Some x ->
    to_numeric (event_id rj) = Some x ->
    (forall r y, In r (combined_df existing_df new_df) ->
                 room_id r = room_id ri ->
                 to_numeric (event_id r) = Some y -> (y <= x)%Z) ->
    exists m r,
      idxmax (with_event_id_num (combined_df existing_df new_df))
        (room_id ri) = Some m /\
      m <= i /\ m <> j /\
      nth_error (combined_df existing_df new_df) m = Some r /\
      to_numeric (event_id r) = Some x /\
      (i < List.length (astype_rooms existing_df) ->
       In r (astype_rooms existing_df)) /\
      (forall out, reconcile existing_df new_df = Ok out ->
         In r out /\
         (forall r', In r' out -> room_id r' = room_id ri -> r' = r)) /\
      (all_groups_valued (combined_df existing_df new_df) ->
       exists out, reconcile existing_df new_df = Ok out).
Proof.
  intros ex new i j ri rj x Hij Hi Hj Hk Hxi Hxj Hmax.
  assert (Hgi : in_group (with_event_id_num (combined_df ex new))
                  (room_id ri) i x).
  { apply in_group_frame. eauto. }
  destruct (idxmax_exists _ _ _ _ Hgi) as (m & y & Hfm).
  pose proof Hfm as (Hg & Hall).
  apply in_group_frame in Hg. destruct Hg as (r & Hn & Hrk & Hy).
  destruct (Hall i x Hgi) as (Hle & Hfirst).
  assert (Hyx : (y <= x)%Z).
  { apply (Hmax r y); [eapply nth_error_In; exact Hn|assumption|assumption]. }
  assert (y = x) by lia. subst y. specialize (Hfirst eq_refl).
  exists m, r.
  split; [apply idxmax_of_first_max with (x := x); exact Hfm|].
  split; [exact Hfirst|]. split; [lia|]. split; [exact Hn|].
  split; [exact Hy|]. split; [|split].
  - intros Hlen. rewrite combined_df_app in Hn.
    rewrite nth_error_app1 in Hn by lia. eapply nth_error_In. exact Hn.
  - intros out Hok. eapply first_max_is_kept; eassumption.
  - apply final_df_total.
Qed.

(** C2.  For a participant present in the existing and in the incoming rows
    with different numeric values, the row selected for the participant has
    a value at least the greater of the two, and when these two are the
    participant's only rows it is the row with the greater value.  It is the
    one row of the participant in the frame the reconciliation returns, and
    the reconciliation returns a frame when every participant has a numeric
    [event_id]. *)
Theorem latest_wins :
  forall (existing_df : list (option string * option string))
         (new_df : list Room) (e n : Room) (xe xn : Z),
    In e (astype_rooms existing_df) -> In n new_df ->
    room_id e = room_id n ->
    to_numeric (event_id e) = Some xe ->
    to_numeric (event_id n) = Some xn ->
    xe <> xn ->
    exists m r x,
      idxmax (with_event_id_num (combined_df existing_df new_df))
        (room_id e) = Some m /\
      nth_error (combined_df existing_df new_df) m = Some r /\
      room_id r = room_id e /\
      to_numeric (event_id r) = Some x /\ (Z.max xe xn <= x)%Z /\
      ((forall r', In r' (combined_df existing_df new_df) ->
                   room_id r' = room_id e -> r' = e \/ r' = n) ->
       r = if (xe <? xn)%Z then n else e) /\
      (forall out, reconcile existing_df new_df = Ok out ->
         In r out /\
         (forall r', In r' out -> room_id r' = room_id e -> r' = r)) /\
      (all_groups_valued (combined_df existing_df new_df) ->
       exists out, reconcile existing_df new_df = Ok out).
Proof.
  intros ex new e n xe xn He Hn Hk Hxe Hxn Hne.
  assert (Hie : In e (combined_df ex new)).
  { rewrite combined_df_app. apply in_or_app. auto. }
  assert (Hin' : In n (combined_df ex new)).
  { rewrite combined_df_app. apply in_or_app. auto. }
  destruct (In_nth_error _ _ Hie) as (ie & Hnie).
  destruct (In_nth_error _ _ Hin') as (jn & Hnjn).
  assert (Hge : in_group (with_event_id_num (combined_df ex new))
                  (room_id e) ie xe).
  { apply in_group_frame. eauto. }
  assert (Hgn : in_group (with_event_id_num (combined_df ex new))
                  (room_id e) jn xn).
  { apply in_group_frame. exists n. auto. }
  destruct (idxmax_exists _ _ _ _ Hge) as (m & y & Hfm).
  pose proof Hfm as (Hg & Hall).
  apply in_group_frame in Hg. destruct Hg as (r & Hm & Hrk & Hy).
  destruct (Hall ie xe Hge) as (Hle & _).
  destruct (Hall jn xn Hgn) as (Hln & _).
  exists m, r, y.
  split; [apply idxmax_of_first_max with (x := y); exact Hfm|].
  split; [exact Hm|]. split; [exact Hrk|]. split; [exact Hy|].
  split; [lia|]. split; [|split].
  - intros Honly.
    destruct (Honly r (nth_error_In _ _ Hm) Hrk) as [->| ->].
    + rewrite Hxe in Hy. inversion Hy; subst.
      destruct (Z.ltb_spec y xn); [lia|reflexivity].
    + rewrite Hxn in Hy. inversion Hy; subst.
      destruct (Z.ltb_spec xe y); [reflexivity|lia].
  - intros out Hok. eapply first_max_is_kept; eassumption.
  - apply final_df_total.
Qed.

(** Completeness, for inputs in which every participant has a numeric
    [event_id]: the reconciliation returns a frame, and the participants of
    that frame are those of the two inputs, each once. *)
Lemma completeness_when_valued :
  forall (existing_df : list (option string * option string))
         (new_df : list Room),
    all_groups_valued (combined_df existing_df new_df) ->
    exists out,
      reconcile existing_df new_df = Ok out /\
      NoDup (map room_id out) /\
      forall p, In p (map room_id out) <->
                In p (map room_id (astype_rooms existing_df)) \/
                In p (map room_id new_df).
Proof.
  intros ex new Hall. destruct (final_df_total _ Hall) as (out & Hok).
  exists out. split; [exact Hok|].
  rewrite (final_df_keys _ _ Hok). split; [apply group_keys_NoDup|].
  intros p. rewrite group_keys_frame, combined_df_app, map_app, in_app_iff.
  reflexivity.
Qed.

(** A row without a numeric [event_id] is never kept for a participant that
    has a row with one. *)
Lemma unparseable_never_selected :
  forall (existing_df : list (option string * option string))
         (new_df out : list Room) (r : Room),
    reconcile existing_df new_df = Ok out ->
    In r out -> exists x, to_numeric (event_id r) = Some x.
Proof.
  intros ex new out r Hok Hr. unfold reconcile in Hok.
  apply final_df_Ok in Hok.
  remember (group_keys _) as keys eqn:E. clear E. revert Hr.
  induction Hok as [|k r0 keys out' (_ & i & x & _ & _ & Hx) _ IH]; intros Hr.
  - contradiction.
  - destruct Hr as [->|Hr]; eauto.
Qed.

(** ** The paginated fetcher *)

Lemma fetch_pages_reaches (api : json -> response) (page page' : json)
  (rooms rooms' : list Room) (visited : list json) :
  reaches api page rooms visited page' rooms' ->
  forall fuel reqs,
    fetch_pages (List.length visited + fuel) api page rooms reqs =
    fetch_pages fuel api page' rooms' (reqs ++ visited).
Proof.
  induction 1 as [page rooms|page rooms rooms1 page1 visited page' rooms' Hstep _ IH];
    intros fuel reqs.
  - simpl. rewrite app_nil_r. reflexivity.
  - simpl. rewrite Hstep, IH, <- app_assoc. reflexivity.
Qed.

(** C6.  When the loop has gone through the pages [visited] and the request
    for the next page fails at the transport level, the function returns
    (given fuel for these requests) exactly the rooms accumulated on the
    pages before, after one request for the failing page and no more, and
    the failure is reported ([Aborted]) in the returned value. *)
Theorem transport_failure_keeps_accumulated :
  forall (api : json -> response) (visited : list json) (page : json)
         (rooms : list Room) (fuel : nat),
    reaches api (JInt 1) [] visited page rooms ->
    api page = TransportError ->
    List.length visited < fuel ->
    fetch_all_room_data fuel api =
    mkFetched rooms (visited ++ [page]) Aborted.
Proof.
  intros api visited page rooms fuel Hreach Hfail Hfuel.
  unfold fetch_all_room_data.
  replace fuel with (List.length visited + S (fuel - S (List.length visited)))
    by lia.
  rewrite (fetch_pages_reaches _ _ _ _ _ _ Hreach). simpl.
  unfold fetch_page. rewrite Hfail. reflexivity.
Qed.

Lemma extract_rooms_well_formed (items : list json) (rooms : list Room) :
  Forall (fun room_data => room_record room_data <> None) items ->
  snd (extract_rooms items rooms) = true.
Proof.
  revert rooms. induction items as [|room_data items IH]; simpl; intros rooms H.
  - reflexivity.
  - inversion H as [|? ? Hhead Htail]; subst.
    destruct (room_record room_data) as [[r|]|]; [auto|auto|contradiction].
Qed.

Lemma fetch_page_no_progress (api : json -> response) (page : json)
  (rooms : list Room) (data next_page : json) :
  api page = Body data ->
  dict_get data "next_page" JNull = Some next_page ->
  is_None next_page = true \/ py_eq next_page page = true ->
  exists rooms' s,
    fetch_page api page rooms = Break rooms' s /\ s <> Running /\
    (well_formed_body data -> has_pred page = true -> s = Exhausted).
Proof.
  intros Hbody Hnext Hstop. unfold fetch_page. rewrite Hbody.
  assert (Hor : is_None next_page || py_eq next_page page = true)
    by (apply orb_true_iff; exact Hstop).
  destruct (dict_get data "list" (JList [])) as [room_list|] eqn:Elist.
  - destruct (py_truthy room_list) eqn:Et; simpl.
    + destruct (py_iter room_list) as [items|] eqn:Eit.
      * destruct (extract_rooms items rooms) as [rooms' ok] eqn:Eex.
        destruct ok.
        -- rewrite Hnext, Hor. exists rooms', Exhausted.
           split; [reflexivity|]. split; [discriminate|]. reflexivity.
        -- exists rooms', Aborted.
           split; [reflexivity|]. split; [discriminate|].
           intros (items' & Hl & Hwf) _. rewrite Elist in Hl.
           inversion Hl; subst. simpl in Eit. inversion Eit; subst.
           pose proof (extract_rooms_well_formed items rooms Hwf) as Hs.
           rewrite Eex in Hs. discriminate.
      * exists rooms, Aborted.
        split; [reflexivity|]. split; [discriminate|].
        intros (items' & Hl & _) _. rewrite Elist in Hl.
        inversion Hl; subst. discriminate.
    + exists rooms, (if has_pred page then Exhausted else Aborted).
      split; [reflexivity|]. split.
      * destruct (has_pred page); discriminate.
      * intros _ ->. reflexivity.
  - exists rooms, Aborted.
    split; [reflexivity|]. split; [discriminate|].
    intros (items' & Hl & _). rewrite Elist in Hl. discriminate.
Qed.

(** C9.  An iteration whose response has no next page, or the current page
    as its next page, is the last one: the function returns with that
    request as its final request, and normally ([Exhausted]) when the body is
    well formed.  In particular, against an API that answers every page with
    a well-formed body whose next page is the page asked for, the function
    makes exactly one request, for page 1, and stops normally. *)
Theorem no_progress_terminates :
  forall (api : json -> response) (fuel : nat),
    (forall (page data next_page : json) (rooms : list Room)
            (reqs : list json),
        api page = Body data ->
        dict_get data "next_page" JNull = Some next_page ->
        is_None next_page = true \/ py_eq next_page page = true ->
        exists rooms' s,
          fetch_pages (S fuel) api page rooms reqs =
          mkFetched rooms' (reqs ++ [page]) s /\
          s <> Running /\
          (well_formed_body data -> has_pred page = true -> s = Exhausted))
    /\
    ((forall n : Z, exists data,
         api (JInt n) = Body data /\ well_formed_body data /\
         exists next_page,
           dict_get data "next_page" JNull = Some next_page /\
           py_eq next_page (JInt n) = true) ->
     requested (fetch_all_room_data (S fuel) api) = [JInt 1] /\
     state (fetch_all_room_data (S fuel) api) = Exhausted).
Proof.
  intros api fuel. split.
  - intros page data next_page rooms reqs Hbody Hnext Hstop.
    destruct (fetch_page_no_progress api page rooms data next_page
                Hbody Hnext Hstop) as (rooms' & s & Hstep & Hrun & Hwf).
    exists rooms', s. simpl. rewrite Hstep. auto.
  - intros Hapi.
    destruct (Hapi 1%Z) as (data & Hbody & Hwf & next_page & Hnext & Heq).
    destruct (fetch_page_no_progress api (JInt 1) [] data next_page
                Hbody Hnext (or_intror Heq)) as (rooms' & s & Hstep & _ & Hex).
    unfold fetch_all_room_data. simpl. rewrite Hstep. simpl.
    split; [reflexivity|]. apply Hex; [exact Hwf|reflexivity].
Qed.

Lemma py_truthy_not_falsy (v : json) :
  py_truthy v = true -> v <> JInt 0 /\ v <> JStr "".
Proof.
  intros H. split; intros ->; discriminate.
Qed.

Lemma room_record_from_truthy (room_data : json) (r : Room) :
  room_record room_data = Some (Some r) -> from_truthy r.
Proof.
  unfold room_record.
  destruct (dict_get room_data "room_id" JNull) as [rid|]; [|discriminate].
  destruct (dict_get room_data "event_entry" (JDict [])) as [entry|];
    [|discriminate].
  destruct (dict_get entry "event_id" JNull) as [eid|]; [|discriminate].
  destruct (py_truthy rid) eqn:Er; [|discriminate].
  destruct (py_truthy eid) eqn:Ee; [|discriminate].
  simpl. intros H. inversion H; subst.
  destruct (py_truthy_not_falsy _ Er), (py_truthy_not_falsy _ Ee).
  exists rid, eid. repeat split; assumption.
Qed.

Lemma extract_rooms_from_truthy (items : list json) (rooms : list Room) :
  Forall from_truthy rooms ->
  Forall from_truthy (fst (extract_rooms items rooms)).
Proof.
  revert rooms. induction items as [|room_data items IH]; simpl; intros rooms H.
  - exact H.
  - destruct (room_record room_data) as [[r|]|] eqn:Er; simpl; auto.
    apply IH. apply Forall_app. split; [exact H|].
    constructor; [|constructor]. eapply room_record_from_truthy, Er.
Qed.

Lemma fetch_page_from_truthy (api : json -> response) (page : json)
  (rooms : list Room) :
  Forall from_truthy rooms ->
  match fetch_page api page rooms with
  | Break rooms' _ => Forall from_truthy rooms'
  | Continue rooms' _ => Forall from_truthy rooms'
  end.
Proof.
  intros H. unfold fetch_page.
  destruct (api page) as [|data]; [exact H|].
  destruct (dict_get data "list" (JList [])) as [room_list|]; [|exact H].
  destruct (py_truthy room_list); simpl; [|exact H].
  destruct (py_iter room_list) as [items|]; [|exact H].
  pose proof (extract_rooms_from_truthy items rooms H) as Hex.
  destruct (extract_rooms items rooms) as [rooms' ok]. simpl in Hex.
  destruct ok; [|exact Hex].
  destruct (dict_get data "next_page" JNull) as [next_page|]; [|exact Hex].
  destruct (is_None next_page || py_eq next_page page); exact Hex.
Qed.

Lemma fetch_pages_from_truthy (fuel : nat) (api : json -> response)
  (page : json) (rooms : list Room) (reqs : list json) :
  Forall from_truthy rooms ->
  Forall from_truthy (all_rooms (fetch_pages fuel api page rooms reqs)).
Proof.
  revert page rooms reqs. induction fuel as [|fuel IH]; simpl;
    intros page rooms reqs H.
  - exact H.
  - pose proof (fetch_page_from_truthy api page rooms H) as Hstep.
    destruct (fetch_page api page rooms) as [rooms' s|rooms' next_page].
    + exact Hstep.
    + apply IH. exact Hstep.
Qed.

(** C10.  An item whose [room_id], or whose [event_id] under [event_entry],
    is missing, null, the integer 0 or the empty string is skipped: nothing
    is appended for it, whichever of these the field is.  Every room the
    fetcher returns is made of two truthy values, so neither is the integer
    0 or the empty string. *)
Theorem falsy_identifiers_are_skipped :
  forall (fields entry : list (string * json)),
    dict_get (JDict fields) "event_entry" (JDict []) = Some (JDict entry) ->
    falsy_id (assoc "room_id" fields) \/ falsy_id (assoc "event_id" entry) ->
    room_record (JDict fields) = Some None /\
    (forall items rooms,
        extract_rooms (JDict fields :: items) rooms =
        extract_rooms items rooms) /\
    (forall fuel api r,
        In r (all_rooms (fetch_all_room_data fuel api)) -> from_truthy r).
Proof.
  intros fields entry Hentry Hfalsy.
  assert (Hskip : room_record (JDict fields) = Some None).
  { unfold room_record. rewrite Hentry. simpl.
    destruct Hfalsy as [H|H].
    - destruct H as [->|[->|[->| ->]]]; reflexivity.
    - destruct H as [->|[->|[->| ->]]]; simpl;
        rewrite andb_false_r; reflexivity. }
  split; [exact Hskip|]. split.
  - intros items rooms. simpl. rewrite Hskip. reflexivity.
  - intros fuel api r Hr.
    pose proof (fetch_pages_from_truthy fuel api (JInt 1) [] [] (Forall_nil _))
      as Hall.
    rewrite Forall_forall in Hall. apply Hall. exact Hr.
Qed.

(** ** The orchestrator *)

Lemma digit_not_space_nor_sep (c : ascii) :
  isdigit_char c = true -> isspace c = false /\ is_sep c = false.
Proof.
  destruct c as [b0 b1 b2 b3 b4 b5 b6 b7].
  destruct b0, b1, b2, b3, b4, b5, b6, b7; vm_compute;
    intros H; try discriminate H; split; reflexivity.
Qed.

Lemma rstrip_digits (s : string) :
  all_chars isdigit_char s = true -> rstrip s = s.
Proof.
  induction s as [|c t IH]; simpl; intros H; [reflexivity|].
  apply andb_true_iff in H. destruct H as (Hc & Ht).
  rewrite (IH Ht). destruct (digit_not_space_nor_sep c Hc) as (-> & _).
  destruct t; reflexivity.
Qed.

Lemma strip_digits (s : string) :
  all_chars isdigit_char s = true -> strip s = s.
Proof.
  intros H. unfold strip.
  assert (Hl : lstrip s = s).
  { destruct s as [|c t]; simpl; [reflexivity|].
    simpl in H. apply andb_true_iff in H. destruct H as (Hc & _).
    destruct (digit_not_space_nor_sep c Hc) as (-> & _). reflexivity. }
  rewrite Hl. apply rstrip_digits, H.
Qed.

Lemma isdigit_all_chars (s : string) :
  isdigit s = true -> all_chars isdigit_char s = true /\ s <> "".
Proof.
  destruct s; simpl; intros H; [discriminate|]. split; [exact H|discriminate].
Qed.

Lemma string_app_assoc (a b c : string) :
  ((a ++ b) ++ c)%string = (a ++ b ++ c)%string.
Proof.
  induction a as [|x a IH]; simpl; [reflexivity|]. rewrite IH. reflexivity.
Qed.

Lemma rstrip_twice (a : string) :
  all_chars isdigit_char a = true -> a <> "" ->
  forall b, rstrip (b ++ a)%string = (b ++ a)%string.
Proof.
  intros Ha Hne b. induction b as [|c b IH]; simpl.
  - apply rstrip_digits, Ha.
  - rewrite IH. destruct (b ++ a)%string eqn:E; [|reflexivity].
    destruct b; simpl in E; [contradiction|discriminate].
Qed.

Lemma re_split_digits (a : string) :
  all_chars isdigit_char a = true -> re_split a = [a].
Proof.
  induction a as [|c t IH]; simpl; intros H; [reflexivity|].
  apply andb_true_iff in H. destruct H as (Hc & Ht).
  destruct (digit_not_space_nor_sep c Hc) as (_ & ->).
  rewrite (IH Ht). reflexivity.
Qed.

Lemma re_split_twice (a b : string) :
  all_chars isdigit_char a = true ->
  all_chars isdigit_char b = true -> b <> "" ->
  re_split (a ++ String "," b)%string = [a; b].
Proof.
  intros Ha Hb Hne. induction a as [|c t IH]; simpl.
  - destruct b as [|c' b']; [contradiction|].
    replace (is_sep ",") with true by reflexivity.
    simpl in Hb. apply andb_true_iff in Hb. destruct Hb as (Hc' & Hb').
    destruct (digit_not_space_nor_sep c' Hc') as (_ & Hs). rewrite Hs.
    change (re_split (String c' b')) with
      (let pieces := re_split b' in
       if is_sep c' then
         match b' with
         | String c'' _ => if is_sep c'' then pieces else "" :: pieces
         | "" => "" :: pieces
         end
       else match pieces with
            | p :: ps => String c' p :: ps
            | [] => [String c' ""]
            end).
    simpl. rewrite Hs, (re_split_digits b' Hb'). reflexivity.
  - simpl in Ha. apply andb_true_iff in Ha. destruct Ha as (Hc & Ht).
    destruct (digit_not_space_nor_sep c Hc) as (_ & ->).
    rewrite (IH Ht). reflexivity.
Qed.

(** C5 (as amended).  Parsing validates and does not deduplicate: every
    identifier of the resulting list is a non-empty string of digits, and an
    identifier entered twice is listed twice. *)
Theorem parse_validates_without_dedup :
  (forall event_ids_input,
      Forall (fun eid => isdigit eid = true)
        (parse_event_ids event_ids_input)) /\
  (forall eid,
      isdigit eid = true ->
      parse_event_ids (eid ++ "," ++ eid)%string = [eid; eid]).
Proof.
  split.
  - intros text. unfold parse_event_ids.
    destruct (negb (text =? "")); [|constructor].
    apply Forall_forall. intros x Hx. apply in_map_iff in Hx.
    destruct Hx as (raw & <- & Hraw). apply filter_In in Hraw. apply Hraw.
  - intros eid Hd. destruct (isdigit_all_chars eid Hd) as (Hall & Hne).
    unfold parse_event_ids.
    assert (Hnon : ((eid ++ "," ++ eid)%string =? "") = false).
    { destruct eid; [contradiction|reflexivity]. }
    rewrite Hnon. simpl negb. cbv iota.
    assert (Hstrip : strip (eid ++ "," ++ eid)%string = (eid ++ "," ++ eid)%string).
    { unfold strip.
      assert (Hl : lstrip (eid ++ "," ++ eid)%string = (eid ++ "," ++ eid)%string).
      { destruct eid as [|c t]; [contradiction|]. simpl.
        simpl in Hall. apply andb_true_iff in Hall. destruct Hall as (Hc & _).
        destruct (digit_not_space_nor_sep c Hc) as (-> & _). reflexivity. }
      rewrite Hl.
      replace (eid ++ "," ++ eid)%string with ((eid ++ ",") ++ eid)%string.
      - apply rstrip_twice; assumption.
      - apply string_app_assoc. }
    rewrite Hstrip.
    change (eid ++ "," ++ eid)%string with (eid ++ String "," eid)%string.
    rewrite (re_split_twice eid eid Hall Hall Hne). simpl.
    rewrite (strip_digits eid Hall), Hd. simpl.
    rewrite (strip_digits eid Hall). reflexivity.
Qed.

Lemma fetch_events_told (fuel : nat) (w : world) (event_ids : list string)
  (rooms : list Room) (told : list event) :
  fetch_events fuel w event_ids = Some (rooms, told) ->
  forallb (fun e => negb (is_ftp e)) told = true.
Proof.
  revert rooms told. induction event_ids as [|eid rest IH]; simpl;
    intros rooms told H.
  - inversion H. reflexivity.
  - destruct (fetch_events fuel w rest) as [[rooms' told']|].
    + specialize (IH _ _ eq_refl).
      destruct (state (fetch_all_room_data fuel (api w eid)));
        inversion H; subst; simpl; try exact IH.
    + destruct (state (fetch_all_room_data fuel (api w eid))); discriminate.
Qed.

(** C7.  When the rooms fetched for all the requested events are none, the
    run ends with the error message and nothing else after the fetch: no
    operation on the FTP server is attempted. *)
Theorem empty_fetch_aborts_before_ftp :
  forall (fuel : nat) (w : world) (told : list event),
    parse_event_ids (event_ids_input w) <> [] ->
    button w = true ->
    fetch_events fuel w (parse_event_ids (event_ids_input w)) =
    Some ([], told) ->
    main fuel w = Some (told ++ [St ErrorNoRooms]) /\
    forallb (fun e => negb (is_ftp e)) (told ++ [St ErrorNoRooms]) = true.
Proof.
  intros fuel w told Hids Hbutton Hfetch. split.
  - unfold main. destruct (parse_event_ids (event_ids_input w)) as [|eid ids];
      [contradiction|].
    rewrite Hbutton, Hfetch. reflexivity.
  - rewrite forallb_app, (fetch_events_told _ _ _ _ _ Hfetch). reflexivity.
Qed.

(** C8.  When the remote file cannot be retrieved, or its content cannot be
    read as a table, the download returns the empty frame with a warning,
    whatever the path; the reconciliation is then that of the new rows
    alone, and the session goes on to the upload of its result. *)
Theorem failed_download_is_empty :
  forall (w : world) (new_df : list Room) (remote_path : string),
    ftp_retrlines w remote_path = None \/
    (exists lines, ftp_retrlines w remote_path = Some lines /\
                   read_csv lines = None) ->
    download_ftp_file (ftp_retrlines w) remote_path =
    ([], WarnDownloadFailed) /\
    reconcile (fst (download_ftp_file (ftp_retrlines w) remote_path)) new_df =
    final_df new_df /\
    (remote_path = FTP_FILE_PATH ->
     secrets w = Ok tt -> ftp_connect w = true -> ftp_login w = true ->
     forall df, final_df new_df = Ok df ->
     ftp_session w new_df =
     [Ftp Connect; Ftp Login; Ftp (Retr FTP_FILE_PATH); St WarnDownloadFailed;
      Ftp (Stor FTP_FILE_PATH df);
      St (if ftp_storlines w then SuccessUpload else ErrorUpload);
      Ftp Quit]).
Proof.
  intros w new_df remote_path Hfail.
  assert (Hd : download_ftp_file (ftp_retrlines w) remote_path =
               ([], WarnDownloadFailed)).
  { unfold download_ftp_file.
    destruct Hfail as [->|(lines & -> & ->)]; reflexivity. }
  split; [exact Hd|]. split.
  - rewrite Hd. reflexivity.
  - intros -> Hsec Hcon Hlog df Hdf. unfold ftp_session.
    rewrite Hsec, Hcon, Hlog, Hd. simpl.
    unfold reconcile. simpl. rewrite Hdf. reflexivity.
Qed.

(** ** Reconciliation: what a returned frame is *)

(** X1.  Every row of the frame the reconciliation returns is a row of the
    working collection: no row is made up or altered. *)
Theorem final_df_rows_from_input :
  forall (df out : list Room) (r : Room),
    final_df df = Ok out -> In r out -> In r df.
Proof.
  intros df out r Hok Hr. apply final_df_Ok in Hok.
  remember (group_keys _) as keys eqn:E. clear E. revert Hr.
  induction Hok as [|k r0 keys out' (_ & i & x & _ & Hn & _) _ IH]; intros Hr.
  - contradiction.
  - destruct Hr as [->|Hr]; [eapply nth_error_In; exact Hn|auto].
Qed.

(** X2.  The returned frame is ordered by [room_id], strictly ascending in
    the order of strings (the sorted group keys of [groupby]). *)
Theorem final_df_sorted_by_room_id :
  forall (df out : list Room),
    final_df df = Ok out ->
    StronglySorted OrderedTypeEx.String_as_OT.lt (map room_id out).
Proof.
  intros df out Hok. rewrite (final_df_keys _ _ Hok). apply group_keys_sorted.
Qed.

(** X3.  The row kept for a participant has the greatest numeric value of
    the participant's rows: no row of the working collection with the same
    [room_id] has a greater one. *)
Theorem final_df_row_is_group_max :
  forall (df out : list Room) (r r' : Room) (y : Z),
    final_df df = Ok out -> In r out ->
    In r' df -> room_id r' = room_id r ->
    to_numeric (event_id r') = Some y ->
    exists x, to_numeric (event_id r) = Some x /\ (y <= x)%Z.
Proof.
  intros df out r r' y Hok Hr Hr' Hk Hy.
  assert (Hin : In (room_id r) (map room_id df)).
  { rewrite <- Hk. apply in_map. exact Hr'. }
  destruct (final_df_selects _ _ _ Hok Hin)
    as (m & r0 & x & (_ & Hmax) & _ & _ & Hx & _ & Huniq).
  rewrite (Huniq r Hr eq_refl). exists x. split; [exact Hx|].
  destruct (In_nth_error _ _ Hr') as (j & Hj).
  apply (Hmax j y). apply in_group_frame. eauto.
Qed.



(** ** Reconciliation: running it again *)

Lemma insert_key_head_sorted (k : string) (ks : list string) :
  StronglySorted OrderedTypeEx.String_as_OT.lt (k :: ks) ->
  insert_key k ks = k :: ks.
Proof.
  intros H. destruct ks as [|h t]; [reflexivity|]. simpl.
  inversion H as [|? ? _ Hall]; subst. inversion Hall as [|? ? Hlt _]; subst.
  apply compare_Lt_lt in Hlt. rewrite Hlt. reflexivity.
Qed.

Lemma fold_insert_key_sorted (ks : list string) :
  StronglySorted OrderedTypeEx.String_as_OT.lt ks ->
  fold_right insert_key [] ks = ks.
Proof.
  induction ks as [|k ks IH]; intros H; [reflexivity|]. simpl.
  inversion H as [|? ? Hs _]; subst. rewrite (IH Hs).
  apply insert_key_head_sorted. exact H.
Qed.

Lemma loc_of_Forall2 (rows : list (Room * option Z))
  (labels : list (option nat)) (picked : list (Room * option Z)) :
  Forall2 (fun l row => exists i, l = Some i /\ nth_error rows i = Some row)
    labels picked ->
  loc rows labels = Ok picked.
Proof.
  induction 1 as [|l row labels picked (i & -> & Hn) _ IH]; simpl.
  - reflexivity.
  - rewrite Hn, IH. reflexivity.
Qed.

Lemma Forall2_map_self {A B : Type} (f : A -> B) (P : B -> A -> Prop)
  (l : list A) :
  (forall a, In a l -> P (f a) a) -> Forall2 P (map f l) l.
Proof.
  induction l as [|a l IH]; simpl; intros H; constructor; auto.
Qed.

Lemma sorted_keys_nth (out : list Room) (i j : nat) (r r' : Room) :
  StronglySorted OrderedTypeEx.String_as_OT.lt (map room_id out) ->
  nth_error out i = Some r -> nth_error out j = Some r' ->
  room_id r = room_id r' -> i = j.
Proof.
  intros Hs Hi Hj Hk. apply sorted_NoDup in Hs.
  rewrite NoDup_nth_error in Hs. apply Hs.
  - rewrite length_map. apply nth_error_Some. congruence.
  - rewrite !nth_error_map, Hi, Hj. simpl. congruence.
Qed.

(** A frame that is sorted by [room_id], strictly, and whose rows all have
    a numeric [event_id] is returned as it is. *)
Lemma final_df_fixed (out : list Room) :
  StronglySorted OrderedTypeEx.String_as_OT.lt (map room_id out) ->
  (forall r, In r out -> exists x, to_numeric (event_id r) = Some x) ->
  final_df out = Ok out.
Proof.
  intros Hs Hval. unfold final_df.
  assert (Hkeys : group_keys (with_event_id_num out) = map room_id out).
  { unfold group_keys, with_event_id_num. rewrite map_map. simpl.
    apply fold_insert_key_sorted. exact Hs. }
  rewrite Hkeys.
  assert (Hloc : loc (with_event_id_num out)
                   (map (idxmax (with_event_id_num out)) (map room_id out)) =
                 Ok (with_event_id_num out)).
  { apply loc_of_Forall2.
    replace (map (idxmax (with_event_id_num out)) (map room_id out))
      with (map (fun row => idxmax (with_event_id_num out) (room_id (fst row)))
              (with_event_id_num out))
      by (unfold with_event_id_num; rewrite !map_map; reflexivity).
    apply Forall2_map_self. intros [r v] Hrow. simpl.
    destruct (In_nth_error _ _ Hrow) as (i & Hi).
    exists i. split; [|exact Hi].
    assert (Hr : nth_error out i = Some r /\ v = to_numeric (event_id r)).
    { unfold with_event_id_num in Hi. rewrite nth_error_map in Hi.
      destruct (nth_error out i) as [r0|]; [|discriminate].
      simpl in Hi. inversion Hi; subst. auto. }
    destruct Hr as (Hr & ->).
    destruct (Hval r (nth_error_In _ _ Hr)) as (x & Hx).
    apply idxmax_of_first_max with (x := x). split.
    - apply in_group_frame. eauto.
    - intros j y Hj. apply in_group_frame in Hj.
      destruct Hj as (r' & Hj & Hk & Hy).
      assert (i = j) by (eapply sorted_keys_nth; eauto).
      subst j. rewrite Hr in Hj. inversion Hj; subst.
      rewrite Hx in Hy. inversion Hy; subst. split; [lia|]. intros _. lia. }
  rewrite Hloc. unfold with_event_id_num. rewrite map_map. simpl.
  rewrite map_id. reflexivity.
Qed.

Lemma final_df_rows_valued (df out : list Room) (r : Room) :
  final_df df = Ok out -> In r out ->
  exists x, to_numeric (event_id r) = Some x.
Proof.
  intros Hok Hr. apply final_df_Ok in Hok.
  remember (group_keys _) as keys eqn:E. clear E. revert Hr.
  induction Hok as [|k r0 keys out' (_ & i & x & _ & _ & Hx) _ IH]; intros Hr.
  - contradiction.
  - destruct Hr as [->|Hr]; eauto.
Qed.

(** X5.  Reconciling a returned frame again returns it unchanged: with
    nothing stored and nothing new but the frame itself as either input, the
    result is the frame. *)
Theorem final_df_idempotent :
  forall (df out : list Room),
    final_df df = Ok out -> final_df out = Ok out.
Proof.
  intros df out Hok. apply final_df_fixed.
  - rewrite (final_df_keys _ _ Hok). apply group_keys_sorted.
  - intros r Hr. eapply final_df_rows_valued; eassumption.
Qed.

(** ** Reconciliation: rows that are already there *)

Lemma sorted_ext (l1 l2 : list string) :
  StronglySorted OrderedTypeEx.String_as_OT.lt l1 ->
  StronglySorted OrderedTypeEx.String_as_OT.lt l2 ->
  (forall x, In x l1 <-> In x l2) -> l1 = l2.
Proof.
  intros H1. revert l2.
  induction H1 as [|a l1 Hs1 IH Hall1]; intros l2 H2 Hext.
  - destruct l2 as [|b l2]; [reflexivity|].
    exfalso. apply (proj2 (Hext b)). left. reflexivity.
  - destruct H2 as [|b l2 Hs2 Hall2].
    + exfalso. apply (proj1 (Hext a)). left. reflexivity.
    + rewrite Forall_forall in Hall1, Hall2.
      assert (Hab : a = b).
      { destruct (proj1 (Hext a) (or_introl eq_refl)) as [Hb|Hb]; [auto|].
        destruct (proj2 (Hext b) (or_introl eq_refl)) as [Ha|Ha]; [auto|].
        exfalso.
        apply (OrderedTypeEx.String_as_OT.lt_not_eq a a); [|reflexivity].
        eapply OrderedTypeEx.String_as_OT.lt_trans; [apply Hall1|apply Hall2];
          assumption. }
      subst b. f_equal. apply IH; [exact Hs2|].
      intros x. split; intros Hx.
      * destruct (proj1 (Hext x) (or_intror Hx)) as [<-|Hx']; [|exact Hx'].
        exfalso.
        apply (OrderedTypeEx.String_as_OT.lt_not_eq _ _ (Hall1 _ Hx)).
        reflexivity.
      * destruct (proj2 (Hext x) (or_intror Hx)) as [<-|Hx']; [|exact Hx'].
        exfalso.
        apply (OrderedTypeEx.String_as_OT.lt_not_eq _ _ (Hall2 _ Hx)).
        reflexivity.
Qed.

Lemma idxmax_app_present (df extra : list Room) (k : string) :
  incl extra df ->
  idxmax (with_event_id_num (df ++ extra)) k =
  idxmax (with_event_id_num df) k.
Proof.
  intros Hincl.
  assert (Hcopy : forall j y,
             in_group (with_event_id_num (df ++ extra)) k j y ->
             in_group (with_event_id_num df) k j y \/
             (List.length df <= j /\
              exists j', in_group (with_event_id_num df) k j' y)).
  { intros j y Hj. apply in_group_frame in Hj.
    destruct Hj as (r & Hn & Hk & Hy).
    destruct (Nat.lt_ge_cases j (List.length df)) as [Hlt|Hge].
    - left. rewrite nth_error_app1 in Hn by assumption.
      apply in_group_frame. eauto.
    - right. split; [exact Hge|].
      rewrite nth_error_app2 in Hn by assumption.
      apply nth_error_In, Hincl, In_nth_error in Hn.
      destruct Hn as (j' & Hj'). exists j'. apply in_group_frame. eauto. }
  destruct (idxmax (with_event_id_num df) k) as [m|] eqn:E.
  - apply idxmax_Some in E. destruct E as (x & Hin & Hmax).
    apply idxmax_of_first_max with (x := x). split.
    + apply in_group_frame in Hin. destruct Hin as (r & Hn & Hk & Hx).
      apply in_group_frame. exists r. split; [|auto].
      rewrite nth_error_app1; [exact Hn|].
      apply nth_error_Some. congruence.
    + intros j y Hj. destruct (Hcopy j y Hj) as [Hj'|(Hge & j' & Hj')].
      * apply Hmax. exact Hj'.
      * destruct (Hmax j' y Hj') as (Hle & _). split; [exact Hle|].
        intros _. apply in_group_bound in Hin.
        unfold with_event_id_num in Hin. rewrite length_map in Hin. lia.
  - destruct (idxmax (with_event_id_num (df ++ extra)) k) as [m|] eqn:E';
      [|reflexivity].
    exfalso. apply idxmax_Some in E'. destruct E' as (x & Hin & _).
    destruct (Hcopy m x Hin) as [Hj|(_ & j' & Hj)];
      eapply (idxmax_None _ _ E); exact Hj.
Qed.

Lemma loc_app_rows (rows extra : list (Room * option Z))
  (labels : list (option nat)) :
  (forall i, In (Some i) labels -> i < List.length rows) ->
  loc (rows ++ extra) labels = loc rows labels.
Proof.
  induction labels as [|[i|] rest IH]; simpl; intros H.
  - reflexivity.
  - rewrite nth_error_app1 by (apply H; auto).
    rewrite IH by (intros j Hj; apply H; auto). reflexivity.
  - reflexivity.
Qed.

(** X6.  Rows that are already in the working collection change nothing
    when they are appended once more: the reconciliation of the rows fetched
    with some of them repeated is that of the rows fetched. *)
Theorem reconcile_ignores_repeated_rows :
  forall (existing_df : list (option string * option string))
         (new_df extra : list Room),
    incl extra (combined_df existing_df new_df) ->
    reconcile existing_df (new_df ++ extra) = reconcile existing_df new_df.
Proof.
  intros ex new extra Hincl. unfold reconcile.
  rewrite !combined_df_app in *. rewrite app_assoc.
  set (df := astype_rooms ex ++ new) in *.
  unfold final_df.
  assert (Hkeys : group_keys (with_event_id_num (df ++ extra)) =
                  group_keys (with_event_id_num df)).
  { apply sorted_ext; try apply group_keys_sorted.
    intros k. rewrite !group_keys_frame, map_app, in_app_iff.
    split; [intros [H|H]; [exact H|]|auto].
    apply in_map_iff in H. destruct H as (r & <- & Hr).
    apply in_map, Hincl, Hr. }
  rewrite Hkeys.
  rewrite (map_ext _ _ (fun k => idxmax_app_present df extra k Hincl)).
  unfold with_event_id_num at 1. rewrite map_app.
  fold (with_event_id_num df). rewrite loc_app_rows; [reflexivity|].
  intros i Hi. apply in_map_iff in Hi. destruct Hi as (k & Hk & _).
  apply idxmax_Some in Hk. destruct Hk as (x & Hin & _).
  eapply in_group_bound. exact Hin.
Qed.

(** ** The paginated fetcher: how a page ends the loop *)

(** X7.  When the loop has gone through the pages [visited] and the next
    page has no list, or an empty one, the function returns the rooms
    accumulated so far after that request.  The return is the normal one
    when the page cursor is a number; when it is a string or a container the
    message of the normal path raises and the return is the reported one,
    with the same rooms. *)
Theorem empty_page_ends_the_loop :
  forall (api : json -> response) (visited : list json) (page data : json)
         (room_list : json) (rooms : list Room) (fuel : nat),
    reaches api (JInt 1) [] visited page rooms ->
    api page = Body data ->
    dict_get data "list" (JList []) = Some room_list ->
    py_truthy room_list = false ->
    List.length visited < fuel ->
    fetch_all_room_data fuel api =
    mkFetched rooms (visited ++ [page])
      (if has_pred page then Exhausted else Aborted).
Proof.
  intros api visited page data room_list rooms fuel Hreach Hbody Hlist Hf Hfuel.
  unfold fetch_all_room_data.
  replace fuel with (List.length visited + S (fuel - S (List.length visited)))
    by lia.
  rewrite (fetch_pages_reaches _ _ _ _ _ _ Hreach). simpl.
  unfold fetch_page. rewrite Hbody, Hlist, Hf. reflexivity.
Qed.

Lemma extract_rooms_app (good rest : list json) (rooms : list Room) :
  Forall (fun room_data => room_record room_data <> None) good ->
  extract_rooms (good ++ rest) rooms =
  extract_rooms rest (fst (extract_rooms good rooms)).
Proof.
  revert rooms. induction good as [|room_data good IH]; simpl; intros rooms H.
  - reflexivity.
  - inversion H as [|? ? Hhead Htail]; subst.
    destruct (room_record room_data) as [[r|]|]; [auto|auto|contradiction].
Qed.

(** X8.  An item of a page that is not an object (or whose [event_entry] is
    not one) ends the loop at once as a reported failure; the rooms of the
    items before it on the same page are kept, those of the items after it
    are not read. *)
Theorem malformed_item_aborts_page :
  forall (api : json -> response) (page data : json)
         (good rest : list json) (bad : json) (rooms : list Room),
    api page = Body data ->
    dict_get data "list" (JList []) = Some (JList (good ++ bad :: rest)) ->
    Forall (fun room_data => room_record room_data <> None) good ->
    room_record bad = None ->
    fetch_page api page rooms =
    Break (fst (extract_rooms good rooms)) Aborted /\
    forall fuel reqs,
      fetch_pages (S fuel) api page rooms reqs =
      mkFetched (fst (extract_rooms good rooms)) (reqs ++ [page]) Aborted.
Proof.
  intros api page data good rest bad rooms Hbody Hlist Hgood Hbad.
  assert (Hstep : fetch_page api page rooms =
                  Break (fst (extract_rooms good rooms)) Aborted).
  { unfold fetch_page. rewrite Hbody, Hlist.
    assert (Ht : py_truthy (JList (good ++ bad :: rest)) = true)
      by (destruct good; reflexivity).
    rewrite Ht. simpl. rewrite (extract_rooms_app _ _ _ Hgood). simpl.
    rewrite Hbad. reflexivity. }
  split; [exact Hstep|]. intros fuel reqs. simpl. rewrite Hstep. reflexivity.
Qed.

(** X9.  The default of [room_data.get("event_entry", {})] serves only a
    missing key: an item without [event_entry] is skipped, and an item whose
    [event_entry] is present and is not an object (null, for one) raises,
    whatever its [room_id]. *)
Theorem event_entry_present_must_be_object :
  forall (fields : list (string * json)),
    (assoc "event_entry" fields = None ->
     room_record (JDict fields) = Some None) /\
    (forall v, assoc "event_entry" fields = Some v ->
               (forall entry, v <> JDict entry) ->
               room_record (JDict fields) = None).
Proof.
  intros fields. split.
  - intros Habs. unfold room_record. simpl. rewrite Habs. simpl.
    rewrite andb_false_r. reflexivity.
  - intros v Hv Hnot. unfold room_record. simpl. rewrite Hv.
    destruct v; try reflexivity. exfalso. eapply Hnot. reflexivity.
Qed.

Lemma string_of_int_nonempty (n : Z) :
  NilZero.string_of_int (Z.to_int n) <> "".
Proof.
  destruct (Z.to_int n) as [d|d]; simpl; [|discriminate].
  destruct d; simpl; discriminate.
Qed.

(** X10.  An identifier given as a non-zero integer and the same identifier
    given as its decimal string make the same room: the rows are strings
    whichever way the API writes them. *)
Theorem integer_and_string_ids_agree :
  forall (n m : Z),
    n <> 0%Z -> m <> 0%Z ->
    room_record (room_item (JInt n) (JInt m)) =
    Some (Some (mkRoom (py_str (JInt n)) (py_str (JInt m)))) /\
    room_record (room_item (JStr (py_str (JInt n))) (JStr (py_str (JInt m)))) =
    room_record (room_item (JInt n) (JInt m)).
Proof.
  intros n m Hn Hm. unfold room_record, room_item. simpl.
  apply Z.eqb_neq in Hn, Hm. rewrite Hn, Hm. simpl.
  split; [reflexivity|].
  pose proof (string_of_int_nonempty n) as Hsn.
  pose proof (string_of_int_nonempty m) as Hsm.
  apply String.eqb_neq in Hsn, Hsm. rewrite Hsn, Hsm. reflexivity.
Qed.

(** ** The orchestrator: the fetch of several events *)

(** X11.  The rooms of several events are those of each event, one after
    the other in the order the events were entered, and so are the failures
    reported; an event whose pagination was aborted does not stop the events
    after it. *)
Theorem fetch_events_app :
  forall (fuel : nat) (w : world) (ids1 ids2 : list string),
    fetch_events fuel w (ids1 ++ ids2) =
    match fetch_events fuel w ids1, fetch_events fuel w ids2 with
    | Some (rooms1, told1), Some (rooms2, told2) =>
        Some (rooms1 ++ rooms2, told1 ++ told2)
    | _, _ => None
    end.
Proof.
  intros fuel w ids1 ids2. induction ids1 as [|eid ids1 IH]; simpl.
  - destruct (fetch_events fuel w ids2) as [[rooms2 told2]|]; reflexivity.
  - rewrite IH.
    destruct (fetch_events fuel w ids1) as [[rooms1 told1]|],
             (fetch_events fuel w ids2) as [[rooms2 told2]|],
             (state (fetch_all_room_data fuel (api w eid)));
      simpl; rewrite ?app_assoc; reflexivity.
Qed.

(** ** The orchestrator: what reaches the FTP server *)

Lemma filter_is_ftp_told (told : list event) :
  forallb (fun e => negb (is_ftp e)) told = true -> filter is_ftp told = [].
Proof.
  induction told as [|e told IH]; simpl; intros H; [reflexivity|].
  apply andb_true_iff in H. destruct H as (He & Ht).
  destruct (is_ftp e); [discriminate|auto].
Qed.

Lemma told_has_no_ftp (told : list event) (op : ftp_op) :
  forallb (fun e => negb (is_ftp e)) told = true -> ~ In (Ftp op) told.
Proof.
  intros H Hin. rewrite forallb_forall in H.
  specialize (H _ Hin). discriminate H.
Qed.

(** The trace of a run that got as far as the FTP stage. *)
Lemma main_trace (fuel : nat) (w : world) (trace : list event) :
  main fuel w = Some trace ->
  trace = [St WarnNoEventIds] \/ trace = [] \/
  exists rooms told,
    parse_event_ids (event_ids_input w) <> [] /\ button w = true /\
    fetch_events fuel w (parse_event_ids (event_ids_input w)) =
    Some (rooms, told) /\
    forallb (fun e => negb (is_ftp e)) told = true /\
    ((rooms = [] /\ trace = told ++ [St ErrorNoRooms]) \/
     (rooms <> [] /\ trace = told ++ ftp_session w rooms)).
Proof.
  unfold main. intros H.
  destruct (parse_event_ids (event_ids_input w)) as [|eid ids] eqn:Eids.
  - left. inversion H. reflexivity.
  - destruct (button w) eqn:Eb.
    + destruct (fetch_events fuel w (eid :: ids)) as [[rooms told]|] eqn:Ef;
        [|discriminate].
      right. right. exists rooms, told.
      split; [discriminate|]. split; [reflexivity|]. split; [reflexivity|].
      split; [eapply fetch_events_told; exact Ef|].
      destruct rooms as [|r rooms]; inversion H; subst.
      * left. auto.
      * right. split; [discriminate|reflexivity].
    + right. left. inversion H. reflexivity.
Qed.

Lemma ftp_session_ops (w : world) (new_df : list Room) :
  filter is_ftp (ftp_session w new_df) = [] \/
  filter is_ftp (ftp_session w new_df) = [Ftp Connect] \/
  filter is_ftp (ftp_session w new_df) = [Ftp Connect; Ftp Login; Ftp Quit] \/
  filter is_ftp (ftp_session w new_df) =
  [Ftp Connect; Ftp Login; Ftp (Retr FTP_FILE_PATH); Ftp Quit] \/
  exists df,
    reconcile (fst (download_ftp_file (ftp_retrlines w) FTP_FILE_PATH))
      new_df = Ok df /\
    filter is_ftp (ftp_session w new_df) =
    [Ftp Connect; Ftp Login; Ftp (Retr FTP_FILE_PATH);
     Ftp (Stor FTP_FILE_PATH df); Ftp Quit].
Proof.
  unfold ftp_session.
  destruct (secrets w) as [u|[|]]; [|left; reflexivity|left; reflexivity].
  destruct (ftp_connect w); simpl; [|right; left; reflexivity].
  destruct (ftp_login w); simpl; [|right; right; left; reflexivity].
  destruct (download_ftp_file (ftp_retrlines w) FTP_FILE_PATH)
    as [existing_df told]. simpl.
  destruct (reconcile existing_df new_df) as [df|[|]] eqn:Er; simpl.
  - right. right. right. right. exists df. split; reflexivity.
  - right. right. right. left. reflexivity.
  - right. right. right. left. reflexivity.
Qed.

(** X12.  In every run the operations on the FTP server are one of five
    sequences: none; a connection that fails; connect, login that fails,
    quit; connect, login, download, quit; connect, login, download, upload,
    quit.  So nothing is uploaded before the download was attempted, at most
    one file is uploaded, and a session that was opened is always closed. *)
Theorem main_ftp_protocol :
  forall (fuel : nat) (w : world) (trace : list event),
    main fuel w = Some trace ->
    filter is_ftp trace = [] \/
    filter is_ftp trace = [Ftp Connect] \/
    filter is_ftp trace = [Ftp Connect; Ftp Login; Ftp Quit] \/
    filter is_ftp trace =
    [Ftp Connect; Ftp Login; Ftp (Retr FTP_FILE_PATH); Ftp Quit] \/
    exists df,
      filter is_ftp trace =
      [Ftp Connect; Ftp Login; Ftp (Retr FTP_FILE_PATH);
       Ftp (Stor FTP_FILE_PATH df); Ftp Quit].
Proof.
  intros fuel w trace H.
  destruct (main_trace _ _ _ H)
    as [->|[->|(rooms & told & _ & _ & _ & Htold & Hcase)]];
    [left; reflexivity|left; reflexivity|].
  destruct Hcase as [(_ & ->)|(_ & ->)]; rewrite filter_app,
    (filter_is_ftp_told _ Htold); simpl.
  - left. reflexivity.
  - destruct (ftp_session_ops w rooms) as [E|[E|[E|[E|(df & _ & E)]]]];
      rewrite E; eauto 10.
Qed.


(** X14.  An operation on the FTP server is attempted only in a run whose
    button was pressed, whose text gave at least one event id and whose
    secrets hold the FTP entries; the secrets are read before the server is
    contacted. *)
Theorem ftp_needs_button_ids_and_secrets :
  forall (fuel : nat) (w : world) (trace : list event) (op : ftp_op),
    main fuel w = Some trace ->
    In (Ftp op) trace ->
    button w = true /\
    parse_event_ids (event_ids_input w) <> [] /\
    secrets w = Ok tt /\
    In (Ftp Connect) trace.
Proof.
  intros fuel w trace op H Hin.
  destruct (main_trace _ _ _ H)
    as [->|[->|(rooms & told & Hids & Hb & _ & Htold & Hcase)]].
  - destruct Hin as [Hin|[]]. discriminate Hin.
  - contradiction.
  - split; [exact Hb|]. split; [exact Hids|].
    assert (Hsess : trace = told ++ ftp_session w rooms /\
                    In (Ftp op) (ftp_session w rooms)).
    { destruct Hcase as [(_ & ->)|(_ & ->)]; apply in_app_or in Hin;
        destruct Hin as [Hin|Hin];
        try (exfalso; eapply told_has_no_ftp; eassumption).
      - destruct Hin as [Hin|[]]. discriminate Hin.
      - auto. }
    destruct Hsess as (-> & Hsess). unfold ftp_session in *.
    destruct (secrets w) as [[]|[|]].
    + split; [reflexivity|]. apply in_or_app. right.
      destruct (ftp_connect w); simpl; [|auto].
      destruct (ftp_login w); simpl; [|auto].
      destruct (download_ftp_file (ftp_retrlines w) FTP_FILE_PATH).
      simpl. auto.
    + destruct Hsess as [Hsess|[]]. discriminate Hsess.
    + destruct Hsess as [Hsess|[]]. discriminate Hsess.
Qed.

(** ** The orchestrator: text without an event id *)

Lemma all_chars_lstrip (p : ascii -> bool) (s : string) :
  all_chars p s = true -> all_chars p (lstrip s) = true.
Proof.
  induction s as [|c t IH]; simpl; intros H; [reflexivity|].
  apply andb_true_iff in H. destruct H as (Hc & Ht).
  destruct (isspace c); [auto|]. simpl. rewrite Hc, Ht. reflexivity.
Qed.

Lemma all_chars_rstrip (p : ascii -> bool) (s : string) :
  all_chars p s = true -> all_chars p (rstrip s) = true.
Proof.
  induction s as [|c t IH]; simpl; intros H; [reflexivity|].
  apply andb_true_iff in H. destruct H as (Hc & Ht).
  specialize (IH Ht). destruct (rstrip t) as [|c' t'].
  - destruct (isspace c); simpl; [reflexivity|]. rewrite Hc. reflexivity.
  - simpl in *. rewrite Hc, IH. reflexivity.
Qed.

Lemma all_chars_re_split (p : ascii -> bool) (s : string) :
  all_chars p s = true ->
  Forall (fun piece => all_chars p piece = true) (re_split s).
Proof.
  induction s as [|c t IH]; intros H.
  - simpl. constructor; [reflexivity|constructor].
  - simpl in H. apply andb_true_iff in H. destruct H as (Hc & Ht).
    specialize (IH Ht). simpl.
    destruct (is_sep c).
    + destruct t as [|c' t'].
      * constructor; [reflexivity|exact IH].
      * destruct (is_sep c'); [exact IH|].
        constructor; [reflexivity|exact IH].
    + destruct (re_split t) as [|piece pieces].
      * constructor; [simpl; rewrite Hc; reflexivity|constructor].
      * inversion IH as [|? ? Hp Hps]; subst.
        constructor; [simpl; rewrite Hc, Hp; reflexivity|exact Hps].
Qed.

Lemma no_digit_not_isdigit (s : string) :
  all_chars (fun c => negb (isdigit_char c)) s = true -> isdigit s = false.
Proof.
  destruct s as [|c t]; simpl; intros H; [reflexivity|].
  apply andb_true_iff in H. destruct H as (Hc & _).
  apply negb_true_iff in Hc. rewrite Hc. reflexivity.
Qed.

(** X15.  A text in which no character is a digit gives no event id, and the
    run then only asks for the ids: no request, no FTP operation. *)
Theorem text_without_digits_gives_no_id :
  forall (fuel : nat) (w : world),
    all_chars (fun c => negb (isdigit_char c)) (event_ids_input w) = true ->
    parse_event_ids (event_ids_input w) = [] /\
    main fuel w = Some [St WarnNoEventIds].
Proof.
  intros fuel w H.
  assert (Hp : parse_event_ids (event_ids_input w) = []).
  { unfold parse_event_ids.
    destruct (negb (event_ids_input w =? "")); [|reflexivity].
    assert (Hf : filter (fun eid => isdigit (strip eid))
                   (re_split (strip (event_ids_input w))) = []).
    { pose proof (all_chars_re_split _ _
                    (all_chars_rstrip _ _ (all_chars_lstrip _ _ H))) as Hall.
      fold (strip (event_ids_input w)) in Hall.
      induction Hall as [|piece pieces Hpiece _ IH]; simpl; [reflexivity|].
      rewrite (no_digit_not_isdigit (strip piece)); [exact IH|].
      apply all_chars_rstrip, all_chars_lstrip, Hpiece. }
    rewrite Hf. reflexivity. }
  split; [exact Hp|]. unfold main. rewrite Hp. reflexivity.
Qed.

(** ** Rows that stay, rooms that accumulate *)

(** X16.  A row that is the only row of its participant in the working
    collection is in the frame the reconciliation returns: a stored
    participant that was not fetched again is carried over as it was stored,
    and a participant fetched for the first time is added as fetched. *)
Theorem only_row_of_participant_is_kept :
  forall (existing_df : list (option string * option string))
         (new_df out : list Room) (r : Room),
    In r (combined_df existing_df new_df) ->
    (forall r', In r' (combined_df existing_df new_df) ->
                room_id r' = room_id r -> r' = r) ->
    reconcile existing_df new_df = Ok out ->
    In r out.
Proof.
  intros ex new out r Hr Honly Hok. unfold reconcile in Hok.
  assert (Hin : In (room_id r) (map room_id (combined_df ex new)))
    by (apply in_map; exact Hr).
  destruct (final_df_selects _ _ _ Hok Hin)
    as (m & r0 & x & _ & Hn & Hk & _ & Hr0 & _).
  rewrite <- (Honly r0 (nth_error_In _ _ Hn) Hk). exact Hr0.
Qed.

Lemma extract_rooms_extends (items : list json) (rooms : list Room) :
  exists more, fst (extract_rooms items rooms) = rooms ++ more.
Proof.
  revert rooms. induction items as [|room_data items IH]; simpl; intros rooms.
  - exists []. rewrite app_nil_r. reflexivity.
  - destruct (room_record room_data) as [[r|]|].
    + destruct (IH (rooms ++ [r])) as (more & ->).
      exists (r :: more). rewrite <- app_assoc. reflexivity.
    + apply IH.
    + exists []. rewrite app_nil_r. reflexivity.
Qed.

Lemma fetch_page_extends (api : json -> response) (page : json)
  (rooms : list Room) :
  exists more,
    match fetch_page api page rooms with
    | Break rooms' _ => rooms' = rooms ++ more
    | Continue rooms' _ => rooms' = rooms ++ more
    end.
Proof.
  unfold fetch_page.
  assert (Hsame : exists more : list Room, rooms = rooms ++ more)
    by (exists []; rewrite app_nil_r; reflexivity).
  destruct (api page) as [|data]; [exact Hsame|].
  destruct (dict_get data "list" (JList [])) as [room_list|]; [|exact Hsame].
  destruct (py_truthy room_list); simpl; [|exact Hsame].
  destruct (py_iter room_list) as [items|]; [|exact Hsame].
  destruct (extract_rooms_extends items rooms) as (more & Hmore).
  destruct (extract_rooms items rooms) as [rooms' ok]. simpl in Hmore.
  exists more.
  destruct ok; [|exact Hmore].
  destruct (dict_get data "next_page" JNull) as [next_page|]; [|exact Hmore].
  destruct (is_None next_page || py_eq next_page page); exact Hmore.
Qed.

(** X17.  The rooms accumulated before a page is requested are never dropped
    or reordered by the pages after it, and neither are the requests made:
    what the function returns extends both. *)
Theorem fetch_pages_extends :
  forall (fuel : nat) (api : json -> response) (page : json)
         (rooms : list Room) (reqs : list json),
    exists more pages,
      all_rooms (fetch_pages fuel api page rooms reqs) = rooms ++ more /\
      requested (fetch_pages fuel api page rooms reqs) = reqs ++ pages /\
      List.length pages <= fuel.
Proof.
  induction fuel as [|fuel IH]; intros api page rooms reqs; simpl.
  - exists [], []. rewrite !app_nil_r. auto.
  - destruct (fetch_page_extends api page rooms) as (more & Hmore).
    destruct (fetch_page api page rooms) as [rooms' s|rooms' next_page];
      subst rooms'.
    + exists more, [page]. simpl. auto with arith.
    + destruct (IH api next_page (rooms ++ more) (reqs ++ [page]))
        as (more' & pages & -> & -> & Hlen).
      exists (more ++ more'), (page :: pages).
      rewrite <- !app_assoc. simpl. auto with arith.
Qed.

End App.

(** ** The claims on concrete runs *)

(** C1 as the specification states it fails: of two rows of one participant
    with the same numeric value, the stored row at label 0 and the fetched
    row at label 1, the reconciliation keeps the stored one; the later row
    is not in the output. *)
Lemma tie_later_row_is_dropped :
  nth_error (combined_df tie_snapshot tie_rooms) 0 = Some (mkRoom "p" "5") /\
  nth_error (combined_df tie_snapshot tie_rooms) 1 = Some (mkRoom "p" "05") /\
  to_numeric_plain "5" = Some 5%Z /\
  to_numeric_plain "05" = Some 5%Z /\
  reconcile to_numeric_plain tie_snapshot tie_rooms = Ok [mkRoom "p" "5"] /\
  ~ In (mkRoom "p" "05") [mkRoom "p" "5"].
Proof.
  repeat split; try reflexivity.
  intros [H|[]]. discriminate H.
Qed.

Lemma tie_keeps_earliest_row_witness :
  exists m r,
    idxmax (with_event_id_num to_numeric_plain
              (combined_df tie_snapshot tie_rooms)) "p" = Some m /\
    m <= 0 /\ m <> 1 /\
    nth_error (combined_df tie_snapshot tie_rooms) m = Some r /\
    to_numeric_plain (event_id r) = Some 5%Z /\
    (0 < List.length (astype_rooms tie_snapshot) ->
     In r (astype_rooms tie_snapshot)) /\
    (forall out, reconcile to_numeric_plain tie_snapshot tie_rooms = Ok out ->
       In r out /\ (forall r', In r' out -> room_id r' = "p" -> r' = r)) /\
    (all_groups_valued to_numeric_plain (combined_df tie_snapshot tie_rooms) ->
     exists out, reconcile to_numeric_plain tie_snapshot tie_rooms = Ok out).
Proof.
  apply (tie_keeps_earliest_row to_numeric_plain tie_snapshot tie_rooms
           0 1 (mkRoom "p" "5") (mkRoom "p" "05") 5%Z).
  - lia.
  - reflexivity.
  - reflexivity.
  - reflexivity.
  - reflexivity.
  - reflexivity.
  - intros r y [<-|[<-|[]]] _ H; vm_compute in H; inversion H; lia.
Defined.

Lemma latest_wins_witness :
  exists m r x,
    idxmax (with_event_id_num to_numeric_plain
              (combined_df snapshot fetched_rooms)) "100" = Some m /\
    nth_error (combined_df snapshot fetched_rooms) m = Some r /\
    room_id r = "100" /\
    to_numeric_plain (event_id r) = Some x /\ (Z.max 10 15 <= x)%Z /\
    ((forall r', In r' (combined_df snapshot fetched_rooms) ->
                 room_id r' = "100" ->
                 r' = mkRoom "100" "10" \/ r' = mkRoom "100" "15") ->
     r = mkRoom "100" "15") /\
    (forall out, reconcile to_numeric_plain snapshot fetched_rooms = Ok out ->
       In r out /\ (forall r', In r' out -> room_id r' = "100" -> r' = r)) /\
    (all_groups_valued to_numeric_plain (combined_df snapshot fetched_rooms) ->
     exists out, reconcile to_numeric_plain snapshot fetched_rooms = Ok out).
Proof.
  apply (latest_wins to_numeric_plain snapshot fetched_rooms
           (mkRoom "100" "10") (mkRoom "100" "15") 10%Z 15%Z).
  - simpl. auto.
  - simpl. auto.
  - reflexivity.
  - reflexivity.
  - reflexivity.
  - lia.
Defined.

(** The scenario of the specification, evaluated. *)
Example concrete_scenario :
  reconcile to_numeric_plain snapshot fetched_rooms =
  Ok [mkRoom "100" "15"; mkRoom "200" "20"; mkRoom "300" "30"].
Proof. reflexivity. Qed.

(** C3 on a stored row whose [event_id] cell is empty: both participants are
    in the inputs, and the reconciliation raises instead of returning a
    frame, so neither is in any output. *)
Theorem completeness_fails_on_blank_cell :
  In "123" (map room_id (astype_rooms blank_snapshot)) /\
  In "456" (map room_id one_room) /\
  to_numeric_plain (astype_str None) = None /\
  reconcile to_numeric_plain blank_snapshot one_room = Raise KeyError /\
  forall out, reconcile to_numeric_plain blank_snapshot one_room <> Ok out.
Proof.
  repeat split; try reflexivity.
  - simpl. auto.
  - simpl. auto.
  - intros out H. discriminate H.
Qed.

(** C4 on a room whose only [event_id] is not a number: the run downloads,
    the reconciliation raises, nothing is uploaded and the message shown is
    that of the KeyError branch. *)
Theorem unparseable_only_room_stops_the_run :
  all_rooms (fetch_all_room_data scalar_eq no_container_str 5
               (api world_unparseable "1")) = unparseable_rooms /\
  to_numeric_plain "abc" = None /\
  reconcile to_numeric_plain [] unparseable_rooms = Raise KeyError /\
  main scalar_eq no_container_str to_numeric_plain read_csv_none 5
    world_unparseable =
  Some [Ftp Connect; Ftp Login; Ftp (Retr FTP_FILE_PATH);
        St WarnDownloadFailed; Ftp Quit; St ErrorSecrets].
Proof. repeat split; reflexivity. Qed.

(** C5 as the specification states it fails: an identifier entered twice
    is twice in the list. *)
Lemma parse_keeps_duplicates :
  parse_event_ids "1,1" = ["1"; "1"] /\ ~ NoDup (parse_event_ids "1,1").
Proof.
  split; [reflexivity|].
  intros H. inversion H as [|x l Hnotin _]; subst.
  apply Hnotin. left. reflexivity.
Qed.

Lemma parse_validates_without_dedup_witness :
  Forall (fun eid => isdigit eid = true)
    (parse_event_ids "40883, 40884, x") /\
  parse_event_ids "40883,40883" = ["40883"; "40883"].
Proof.
  split.
  - apply (proj1 parse_validates_without_dedup).
  - apply (proj2 parse_validates_without_dedup "40883"). reflexivity.
Defined.

Lemma transport_failure_keeps_accumulated_witness :
  fetch_all_room_data scalar_eq no_container_str 5 api_fails_on_third =
  mkFetched [mkRoom "5" "7"; mkRoom "6" "7"] [JInt 1; JInt 2; JInt 3] Aborted.
Proof.
  apply (transport_failure_keeps_accumulated scalar_eq no_container_str
           api_fails_on_third [JInt 1; JInt 2] (JInt 3)
           [mkRoom "5" "7"; mkRoom "6" "7"] 5).
  - apply reaches_next with (rooms1 := [mkRoom "5" "7"]) (page1 := JInt 2);
      [reflexivity|].
    apply reaches_next with (rooms1 := [mkRoom "5" "7"; mkRoom "6" "7"])
                            (page1 := JInt 3); [reflexivity|].
    apply reaches_here.
  - reflexivity.
  - simpl. lia.
Defined.

Lemma api_same_page_well_formed (page : json) :
  well_formed_body no_container_str
    (JDict [("list", JList [room_item (JInt 5) (JInt 7)]);
            ("next_page", page)]).
Proof.
  exists [room_item (JInt 5) (JInt 7)]. split; [reflexivity|].
  constructor; [discriminate|constructor].
Defined.

Lemma no_progress_terminates_witness :
  (exists rooms' s,
      fetch_pages scalar_eq no_container_str 3 api_same_page (JInt 4)
        [mkRoom "1" "2"] [JInt 3] =
      mkFetched rooms' [JInt 3; JInt 4] s /\
      s <> Running /\
      (well_formed_body no_container_str
         (JDict [("list", JList [room_item (JInt 5) (JInt 7)]);
                 ("next_page", JInt 4)]) ->
       has_pred (JInt 4) = true -> s = Exhausted)) /\
  requested (fetch_all_room_data scalar_eq no_container_str 3 api_same_page) =
  [JInt 1] /\
  state (fetch_all_room_data scalar_eq no_container_str 3 api_same_page) =
  Exhausted.
Proof.
  split.
  - apply (proj1 (no_progress_terminates scalar_eq no_container_str
                    api_same_page 2) (JInt 4) _ (JInt 4)).
    + reflexivity.
    + reflexivity.
    + right. reflexivity.
  - apply (proj2 (no_progress_terminates scalar_eq no_container_str
                    api_same_page 2)).
    intros n. eexists. split; [reflexivity|].
    split; [apply api_same_page_well_formed|].
    exists (JInt n). split; [reflexivity|]. simpl. apply Z.eqb_refl.
Defined.

Lemma falsy_identifiers_are_skipped_witness :
  room_record no_container_str (room_item (JInt 0) (JInt 7)) = Some None /\
  (forall items rooms,
      extract_rooms no_container_str (room_item (JInt 0) (JInt 7) :: items)
        rooms =
      extract_rooms no_container_str items rooms) /\
  (forall fuel api r,
      In r (all_rooms (fetch_all_room_data scalar_eq no_container_str fuel api)) ->
      from_truthy no_container_str r).
Proof.
  apply (falsy_identifiers_are_skipped scalar_eq no_container_str
           [("room_id", JInt 0); ("event_entry", JDict [("event_id", JInt 7)])]
           [("event_id", JInt 7)]).
  - reflexivity.
  - left. right. right. left. reflexivity.
Defined.

Lemma empty_fetch_aborts_before_ftp_witness :
  main scalar_eq no_container_str to_numeric_plain read_csv_none 3
    world_unreachable =
  Some ([St (ErrorApi "40883")] ++ [St ErrorNoRooms]) /\
  forallb (fun e => negb (is_ftp e))
    ([St (ErrorApi "40883")] ++ [St ErrorNoRooms]) = true.
Proof.
  apply (empty_fetch_aborts_before_ftp scalar_eq no_container_str
           to_numeric_plain read_csv_none 3 world_unreachable
           [St (ErrorApi "40883")]).
  - discriminate.
  - reflexivity.
  - reflexivity.
Defined.

Lemma failed_download_is_empty_witness :
  download_ftp_file read_csv_none (ftp_retrlines world_first_run)
    FTP_FILE_PATH = ([], WarnDownloadFailed) /\
  reconcile to_numeric_plain
    (fst (download_ftp_file read_csv_none (ftp_retrlines world_first_run)
            FTP_FILE_PATH)) fetched_rooms =
  final_df to_numeric_plain fetched_rooms /\
  (FTP_FILE_PATH = FTP_FILE_PATH ->
   secrets world_first_run = Ok tt ->
   ftp_connect world_first_run = true ->
   ftp_login world_first_run = true ->
   forall df, final_df to_numeric_plain fetched_rooms = Ok df ->
   ftp_session to_numeric_plain read_csv_none world_first_run fetched_rooms =
   [Ftp Connect; Ftp Login; Ftp (Retr FTP_FILE_PATH); St WarnDownloadFailed;
    Ftp (Stor FTP_FILE_PATH df);
    St (if ftp_storlines world_first_run then SuccessUpload else ErrorUpload);
    Ftp Quit]).
Proof.
  apply (failed_download_is_empty to_numeric_plain read_csv_none
           world_first_run fetched_rooms FTP_FILE_PATH).
  left. reflexivity.
Defined.

(** ** Further properties on concrete runs *)

Lemma final_df_rows_from_input_witness :
  In (mkRoom "100" "15") (combined_df snapshot fetched_rooms).
Proof.
  apply (final_df_rows_from_input to_numeric_plain
           (combined_df snapshot fetched_rooms)
           [mkRoom "100" "15"; mkRoom "200" "20"; mkRoom "300" "30"]).
  - reflexivity.
  - simpl. auto.
Defined.

Lemma final_df_sorted_by_room_id_witness :
  StronglySorted OrderedTypeEx.String_as_OT.lt ["100"; "200"; "300"].
Proof.
  apply (final_df_sorted_by_room_id to_numeric_plain
           (combined_df snapshot fetched_rooms)
           [mkRoom "100" "15"; mkRoom "200" "20"; mkRoom "300" "30"]).
  reflexivity.
Defined.

Lemma final_df_row_is_group_max_witness :
  exists x, to_numeric_plain "15" = Some x /\ (10 <= x)%Z.
Proof.
  apply (final_df_row_is_group_max to_numeric_plain
           (combined_df snapshot fetched_rooms)
           [mkRoom "100" "15"; mkRoom "200" "20"; mkRoom "300" "30"]
           (mkRoom "100" "15") (mkRoom "100" "10") 10%Z).
  - reflexivity.
  - simpl. auto.
  - simpl. auto.
  - reflexivity.
  - reflexivity.
Defined.


Lemma final_df_idempotent_witness :
  final_df to_numeric_plain
    [mkRoom "100" "15"; mkRoom "200" "20"; mkRoom "300" "30"] =
  Ok [mkRoom "100" "15"; mkRoom "200" "20"; mkRoom "300" "30"].
Proof.
  apply (final_df_idempotent to_numeric_plain
           (combined_df snapshot fetched_rooms)).
  reflexivity.
Defined.

Lemma reconcile_ignores_repeated_rows_witness :
  reconcile to_numeric_plain snapshot (fetched_rooms ++ fetched_rooms) =
  reconcile to_numeric_plain snapshot fetched_rooms.
Proof.
  apply (reconcile_ignores_repeated_rows to_numeric_plain snapshot
           fetched_rooms fetched_rooms).
  intros r Hr. rewrite combined_df_app. apply in_or_app. right. exact Hr.
Defined.

Lemma empty_page_ends_the_loop_witness :
  fetch_all_room_data scalar_eq no_container_str 2
    (fun _ => Body (JDict [("list", JList [])])) =
  mkFetched [] [JInt 1] Exhausted.
Proof.
  apply (empty_page_ends_the_loop scalar_eq no_container_str
           (fun _ => Body (JDict [("list", JList [])])) [] (JInt 1)
           (JDict [("list", JList [])]) (JList []) [] 2).
  - apply reaches_here.
  - reflexivity.
  - reflexivity.
  - reflexivity.
  - simpl. lia.
Defined.

Lemma malformed_item_aborts_page_witness :
  fetch_page scalar_eq no_container_str
    (fun _ => listing [room_item (JInt 5) (JInt 7); JInt 3;
                       room_item (JInt 6) (JInt 7)] JNull)
    (JInt 1) [] =
  Break (fst (extract_rooms no_container_str [room_item (JInt 5) (JInt 7)] []))
    Aborted /\
  forall fuel reqs,
    fetch_pages scalar_eq no_container_str (S fuel)
      (fun _ => listing [room_item (JInt 5) (JInt 7); JInt 3;
                         room_item (JInt 6) (JInt 7)] JNull)
      (JInt 1) [] reqs =
    mkFetched
      (fst (extract_rooms no_container_str [room_item (JInt 5) (JInt 7)] []))
      (reqs ++ [JInt 1]) Aborted.
Proof.
  apply (malformed_item_aborts_page scalar_eq no_container_str
           (fun _ => listing [room_item (JInt 5) (JInt 7); JInt 3;
                              room_item (JInt 6) (JInt 7)] JNull)
           (JInt 1)
           (JDict [("list", JList [room_item (JInt 5) (JInt 7); JInt 3;
                                   room_item (JInt 6) (JInt 7)]);
                   ("next_page", JNull)])
           [room_item (JInt 5) (JInt 7)] [room_item (JInt 6) (JInt 7)]
           (JInt 3) []).
  - reflexivity.
  - reflexivity.
  - constructor; [discriminate|constructor].
  - reflexivity.
Defined.

Lemma event_entry_present_must_be_object_witness :
  room_record no_container_str (JDict [("room_id", JInt 5)]) = Some None /\
  room_record no_container_str
    (JDict [("room_id", JInt 5); ("event_entry", JNull)]) = None.
Proof.
  split.
  - apply (proj1 (event_entry_present_must_be_object no_container_str
                    [("room_id", JInt 5)])).
    reflexivity.
  - apply (proj2 (event_entry_present_must_be_object no_container_str
                    [("room_id", JInt 5); ("event_entry", JNull)]) JNull).
    + reflexivity.
    + intros entry H. discriminate H.
Defined.

Lemma integer_and_string_ids_agree_witness :
  room_record no_container_str (room_item (JInt 5) (JInt 7)) =
  Some (Some (mkRoom (py_str no_container_str (JInt 5))
                (py_str no_container_str (JInt 7)))) /\
  room_record no_container_str
    (room_item (JStr (py_str no_container_str (JInt 5)))
       (JStr (py_str no_container_str (JInt 7)))) =
  room_record no_container_str (room_item (JInt 5) (JInt 7)).
Proof.
  apply (integer_and_string_ids_agree no_container_str 5%Z 7%Z); lia.
Defined.

Lemma main_ftp_protocol_witness :
  filter is_ftp
    [Ftp Connect; Ftp Login; Ftp (Retr FTP_FILE_PATH); St WarnDownloadFailed;
     Ftp (Stor FTP_FILE_PATH [mkRoom "5" "7"]); St SuccessUpload; Ftp Quit] =
  [] \/
  filter is_ftp
    [Ftp Connect; Ftp Login; Ftp (Retr FTP_FILE_PATH); St WarnDownloadFailed;
     Ftp (Stor FTP_FILE_PATH [mkRoom "5" "7"]); St SuccessUpload; Ftp Quit] =
  [Ftp Connect] \/
  filter is_ftp
    [Ftp Connect; Ftp Login; Ftp (Retr FTP_FILE_PATH); St WarnDownloadFailed;
     Ftp (Stor FTP_FILE_PATH [mkRoom "5" "7"]); St SuccessUpload; Ftp Quit] =
  [Ftp Connect; Ftp Login; Ftp Quit] \/
  filter is_ftp
    [Ftp Connect; Ftp Login; Ftp (Retr FTP_FILE_PATH); St WarnDownloadFailed;
     Ftp (Stor FTP_FILE_PATH [mkRoom "5" "7"]); St SuccessUpload; Ftp Quit] =
  [Ftp Connect; Ftp Login; Ftp (Retr FTP_FILE_PATH); Ftp Quit] \/
  exists df,
    filter is_ftp
      [Ftp Connect; Ftp Login; Ftp (Retr FTP_FILE_PATH);
       St WarnDownloadFailed; Ftp (Stor FTP_FILE_PATH [mkRoom "5" "7"]);
       St SuccessUpload; Ftp Quit] =
    [Ftp Connect; Ftp Login; Ftp (Retr FTP_FILE_PATH);
     Ftp (Stor FTP_FILE_PATH df); Ftp Quit].
Proof.
  apply (main_ftp_protocol scalar_eq no_container_str to_numeric_plain
           read_csv_none 5 world_first_run).
  reflexivity.
Defined.


Lemma ftp_needs_button_ids_and_secrets_witness :
  button world_first_run = true /\
  parse_event_ids (event_ids_input world_first_run) <> [] /\
  secrets world_first_run = Ok tt /\
  In (Ftp Connect)
    [Ftp Connect; Ftp Login; Ftp (Retr FTP_FILE_PATH); St WarnDownloadFailed;
     Ftp (Stor FTP_FILE_PATH [mkRoom "5" "7"]); St SuccessUpload; Ftp Quit].
Proof.
  apply (ftp_needs_button_ids_and_secrets scalar_eq no_container_str
           to_numeric_plain read_csv_none 5 world_first_run _ Quit).
  - reflexivity.
  - simpl. auto 10.
Defined.

Lemma text_without_digits_gives_no_id_witness :
  parse_event_ids "abc, def" = [] /\
  main scalar_eq no_container_str to_numeric_plain read_csv_none 5
    (mkWorld "abc, def" true (fun _ _ => TransportError) (Ok tt) true true
       (fun _ => None) true) =
  Some [St WarnNoEventIds].
Proof.
  apply (text_without_digits_gives_no_id scalar_eq no_container_str
           to_numeric_plain read_csv_none 5
           (mkWorld "abc, def" true (fun _ _ => TransportError) (Ok tt) true
              true (fun _ => None) true)).
  reflexivity.
Defined.

Lemma only_row_of_participant_is_kept_witness :
  In (mkRoom "200" "20")
    [mkRoom "100" "15"; mkRoom "200" "20"; mkRoom "300" "30"].
Proof.
  apply (only_row_of_participant_is_kept to_numeric_plain snapshot
           fetched_rooms).
  - simpl. auto.
  - intros r' [<-|[<-|[<-|[<-|[]]]]] H; try reflexivity; discriminate H.
  - reflexivity.
Defined.
